(** * Anthropic-to-OpenAI translation proxy: a shallow embedding

    This development embeds the proxy router of the repository
    ([src/server/routers/proxy.py]) and states its behaviour as theorems:
    the format converters, the token estimator, the request builder, the
    streaming transcoder and the two route handlers.

    Conventions of the embedding.
    - A Python [str] is a [string]; one [ascii] stands for one character
      (code points below 256), so [String.length] is Python's [len].
    - A value decoded from JSON is a [json]; numbers inside such values are
      integers.  The sampling parameters, the only fractional numbers the
      router looks at, are binary64 floats as in Python.
    - A Python [dict] decoded from JSON is an association list whose first
      binding of a key is the one [dict.get] sees.
    - Python exceptions are values of [exn]; a function that may raise
      returns a [result].
    - [uuid.uuid4().hex] is read from a supply [U : nat -> string]: [U k] is
      the digest of the [k]-th uuid drawn during one call.
    - The settings registry and the provider table, which live outside the
      router, are dictionaries with string values.
    - The reply of the handler in the non-streaming case is the backend
      response handed on; the builder of that response is embedded on its
      own, over the attributes of the response object it reads, with
      [json.loads] as a parameter.
    - Calls to [logger] and the variables that only feed them are left out. *)

From Stdlib Require Import ZArith String Ascii List Bool Lia DecimalString Sorted.
From Stdlib Require Import PrimFloat.
From stdpp Require Import base gmap.
Import ListNotations.

Set Warnings "-inexact-float,-register-all".

Local Open Scope string_scope.
Local Open Scope Z_scope.

(** ** Python values decoded from JSON *)

Inductive json : Type :=
| JNull
| JBool (b : bool)
| JNum (n : Z)
| JStr (s : string)
| JArr (items : list json)
| JObj (fields : list (string * json)).

(** The exceptions the modelled code can raise on decoded JSON. *)
Inductive exn : Type :=
| TypeError
| AttributeError.

Inductive result (A : Type) : Type :=
| Ok (a : A)
| Raise (e : exn).
Arguments Ok {A} a.
Arguments Raise {A} e.

Definition bind {A B : Type} (c : result A) (k : A -> result B) : result B :=
  match c with
  | Ok a => k a
  | Raise e => Raise e
  end.

Notation "x <- c ;; k" := (bind c (fun x => k))
  (at level 100, c at next level, right associativity).

Fixpoint mapM {A B : Type} (f : A -> result B) (l : list A) : result (list B) :=
  match l with
  | [] => Ok []
  | a :: l' => b <- f a ;; bs <- mapM f l' ;; Ok (b :: bs)
  end.

(** [d.get(key)] on a dictionary: [None] when the key is absent. *)
Fixpoint dict_get (key : string) (d : list (string * json)) : option json :=
  match d with
  | [] => None
  | (k, v) :: d' => if String.eqb k key then Some v else dict_get key d'
  end.

(** [d.get(key, default)]. *)
Definition dict_get_or (key : string) (default : json) (d : list (string * json)) : json :=
  match dict_get key d with
  | Some v => v
  | None => default
  end.

(** Python truthiness, as used by [if x:], [x or y] and [not x]. *)
Definition truthy (v : json) : bool :=
  match v with
  | JNull => false
  | JBool b => b
  | JNum n => negb (n =? 0)
  | JStr s => negb (String.eqb s "")
  | JArr l => match l with [] => false | _ => true end
  | JObj d => match d with [] => false | _ => true end
  end.

Definition str_truthy (s : string) : bool := negb (String.eqb s "").

Definition opt_str_truthy (o : option string) : bool :=
  match o with
  | Some s => str_truthy s
  | None => false
  end.

(** [sep.join(parts)] on strings. *)
Fixpoint str_join (sep : string) (parts : list string) : string :=
  match parts with
  | [] => ""
  | [s] => s
  | s :: rest => s ++ sep ++ str_join sep rest
  end.

(** [sep.join(parts)] on a list of Python values: a [TypeError] is raised
    when an item is not a [str]. *)
Definition as_str (v : json) : result string :=
  match v with
  | JStr s => Ok s
  | _ => Raise TypeError
  end.

Definition py_join (sep : string) (parts : list json) : result string :=
  strs <- mapM as_str parts ;; Ok (str_join sep strs).

(** *** Rendering: [json.dumps], [repr] and [str] *)

Definition hex_digit (n : N) : ascii :=
  if (n <? 10)%N then ascii_of_N (48 + n) else ascii_of_N (87 + n).

Definition hex2 (n : N) : string :=
  String (hex_digit (n / 16)) (String (hex_digit (n mod 16)) "").

Definition newline : string := String (ascii_of_N 10) "".
Definition dquote : string := String (ascii_of_N 34) "".
Definition squote : string := String (ascii_of_N 39) "".

Definition str_of_Z (n : Z) : string := NilZero.string_of_int (Z.to_int n).

(** [json.dumps] escapes every character outside the printable ASCII range
    (the default [ensure_ascii=True]). *)
Definition dumps_char (c : ascii) : string :=
  let n := N_of_ascii c in
  if (n =? 34)%N then "\" ++ dquote
  else if (n =? 92)%N then "\\"
  else if (n =? 10)%N then "\n"
  else if (n =? 13)%N then "\r"
  else if (n =? 9)%N then "\t"
  else if (n =? 8)%N then "\b"
  else if (n =? 12)%N then "\f"
  else if ((32 <=? n) && (n <=? 126))%N then String c ""
  else "\u00" ++ hex2 n.

Fixpoint dumps_chars (s : string) : string :=
  match s with
  | EmptyString => ""
  | String c s' => dumps_char c ++ dumps_chars s'
  end.

Definition dumps_str (s : string) : string := dquote ++ dumps_chars s ++ dquote.

(** [json.dumps(v)] with the default separators. *)
Fixpoint json_dumps (v : json) : string :=
  match v with
  | JNull => "null"
  | JBool true => "true"
  | JBool false => "false"
  | JNum n => str_of_Z n
  | JStr s => dumps_str s
  | JArr l => "[" ++ str_join ", " (map json_dumps l) ++ "]"
  | JObj d =>
      "{" ++ str_join ", " (map (fun kv => dumps_str (fst kv) ++ ": " ++ json_dumps (snd kv)) d) ++ "}"
  end.

Fixpoint str_contains_char (n : N) (s : string) : bool :=
  match s with
  | EmptyString => false
  | String c s' => (N_of_ascii c =? n)%N || str_contains_char n s'
  end.

(** [repr] of a [str]: single quotes unless the text has a single quote and
    no double quote; control characters and the unprintable part of Latin-1
    are written as hexadecimal escapes. *)
Definition repr_char (quote : N) (c : ascii) : string :=
  let n := N_of_ascii c in
  if ((n =? quote) || (n =? 92))%N then "\" ++ String c ""
  else if (n =? 9)%N then "\t"
  else if (n =? 10)%N then "\n"
  else if (n =? 13)%N then "\r"
  else if ((n <? 32) || ((127 <=? n) && (n <=? 160)) || (n =? 173))%N then "\x" ++ hex2 n
  else String c "".

Fixpoint repr_chars (quote : N) (s : string) : string :=
  match s with
  | EmptyString => ""
  | String c s' => repr_char quote c ++ repr_chars quote s'
  end.

Definition repr_str (s : string) : string :=
  if str_contains_char 39 s && negb (str_contains_char 34 s)
  then dquote ++ repr_chars 34 s ++ dquote
  else squote ++ repr_chars 39 s ++ squote.

Fixpoint py_repr (v : json) : string :=
  match v with
  | JNull => "None"
  | JBool true => "True"
  | JBool false => "False"
  | JNum n => str_of_Z n
  | JStr s => repr_str s
  | JArr l => "[" ++ str_join ", " (map py_repr l) ++ "]"
  | JObj d =>
      "{" ++ str_join ", " (map (fun kv => repr_str (fst kv) ++ ": " ++ py_repr (snd kv)) d) ++ "}"
  end.

(** [str(v)]. *)
Definition py_str (v : json) : string :=
  match v with
  | JStr s => s
  | _ => py_repr v
  end.

(** [len(v)]: a [TypeError] on values without a length. *)
Definition py_len (v : json) : result Z :=
  match v with
  | JStr s => Ok (Z.of_nat (String.length s))
  | JArr l => Ok (Z.of_nat (List.length l))
  | JObj d => Ok (Z.of_nat (List.length d))
  | _ => Raise TypeError
  end.

(** [for x in v]: the items a loop over [v] visits; a [TypeError] on values
    that are not iterable.  A string yields its characters, a dictionary its
    keys. *)
Fixpoint chars_of (s : string) : list json :=
  match s with
  | EmptyString => []
  | String c s' => JStr (String c "") :: chars_of s'
  end.

Definition py_iter (v : json) : result (list json) :=
  match v with
  | JArr l => Ok l
  | JStr s => Ok (chars_of s)
  | JObj d => Ok (map (fun kv => JStr (fst kv)) d)
  | _ => Raise TypeError
  end.

(** [v == s] for a string literal [s]. *)
Definition json_eq_str (v : json) (s : string) : bool :=
  match v with
  | JStr t => String.eqb t s
  | _ => false
  end.

(** [x.get(...)] on a value that should be a dictionary: an
    [AttributeError] when it is not one. *)
Definition as_dict (v : json) : result (list (string * json)) :=
  match v with
  | JObj d => Ok d
  | _ => Raise AttributeError
  end.

(** [uuid.uuid4().hex[:n]]. *)
Definition uuid_prefix (U : nat -> string) (k : nat) (n : nat) : string :=
  String.substring 0 n (U k).

(** ** The compatibility preamble *)

(** The dash of the source text is kept; it is the one character of this
    file that takes more than one [ascii]. *)
Definition _COMPAT_PREAMBLE : string :=
  "You are a capable AI coding assistant. " ++
  "You have access to tools such as Bash (for running shell commands), " ++
  "Read/Write/Edit (for file operations), and various MCP tools. " ++
  "IMPORTANT: Always complete the requested task by calling the available tools " ++
  "directly. Do NOT ask for clarification or additional information – proceed " ++
  "immediately using the tools provided. " ++
  "If a task requires reading a file, call the Read tool. " ++
  "If a task requires running a command, call the Bash tool. " ++
  "If a task requires creating features, call the MCP feature tools. " ++
  "Think step-by-step and use tools to accomplish every goal." ++ newline ++ newline.

(** ** Token estimator *)

(** The characters one block of a list-valued [system] adds. *)
Definition system_block_chars (block : json) : result Z :=
  match block with
  | JObj b => py_len (dict_get_or "text" (JStr "") b)
  | _ => Ok 0
  end.

(** The characters one block of a list-valued message content adds. *)
Definition content_block_chars (block : json) : result Z :=
  match block with
  | JObj b =>
      n <- py_len (dict_get_or "text" (JStr "") b) ;;
      Ok (n + Z.of_nat (String.length (json_dumps (dict_get_or "input" (JStr "") b))))
  | _ => Ok 0
  end.

(** [total_chars] after a loop that adds [chars x] for every [x] of [l]. *)
Fixpoint add_chars (chars : json -> result Z) (l : list json) (total_chars : Z) : result Z :=
  match l with
  | [] => Ok total_chars
  | x :: l' => n <- chars x ;; add_chars chars l' (total_chars + n)
  end.

Definition message_chars (msg : json) : result Z :=
  m <- as_dict msg ;;
  match dict_get_or "content" (JStr "") m with
  | JStr s => Ok (Z.of_nat (String.length s))
  | JArr blocks => add_chars content_block_chars blocks 0
  | _ => Ok 0
  end.

Definition _count_tokens_estimate (body : list (string * json)) : result Z :=
  total_chars <-
    match dict_get_or "system" (JStr "") body with
    | JStr s => Ok (Z.of_nat (String.length s))
    | JArr blocks => add_chars system_block_chars blocks 0
    | _ => Ok 0
    end ;;
  msgs <- py_iter (dict_get_or "messages" (JArr []) body) ;;
  total_chars <- add_chars message_chars msgs total_chars ;;
  Ok (Z.max 1 (total_chars / 4)).

(** ** Format converters: inbound protocol to backend protocol *)

(** The parts one element of a block list adds in the loops of
    [_translate_system_prompt] and of the [tool_result] flattening: the
    [text] of a dictionary typed [text], or the element itself when it is a
    string. *)
Definition text_part_of (block : json) : list json :=
  match block with
  | JObj b =>
      if json_eq_str (dict_get_or "type" JNull b) "text"
      then [dict_get_or "text" (JStr "") b]
      else []
  | JStr s => [JStr s]
  | _ => []
  end.

Definition _translate_system_prompt (system : json) : result string :=
  match system with
  | JStr s => Ok s
  | JArr blocks => py_join newline (flat_map text_part_of blocks)
  | _ => Ok (py_str system)
  end.

(** The three lists the block loop of [_translate_messages_to_openai] fills,
    and the number of uuids drawn so far. *)
Record block_lists : Type := mk_block_lists {
  text_parts : list json;
  tool_calls : list json;
  tool_results : list json;
  uuids_drawn : nat
}.

(** The text of a [tool_result]: its [content] when a string, the joined
    text parts when a list, [str] of it otherwise. *)
Definition flatten_result_content (result_content : json) : result string :=
  match result_content with
  | JArr rcs => py_join newline (flat_map text_part_of rcs)
  | JStr s => Ok s
  | other => Ok (py_str other)
  end.

Definition tool_call_of (U : nat -> string) (k : nat) (b : list (string * json)) : json :=
  JObj [("id", dict_get_or "id" (JStr ("call_" ++ uuid_prefix U k 8)) b);
        ("type", JStr "function");
        ("function",
          JObj [("name", dict_get_or "name" (JStr "") b);
                ("arguments", JStr (json_dumps (dict_get_or "input" (JObj []) b)))])].

Definition tool_message_of (b : list (string * json)) (result_content : string) : json :=
  JObj [("role", JStr "tool");
        ("tool_call_id", dict_get_or "tool_use_id" (JStr "") b);
        ("content", JStr result_content)].

(** One round of the loop over the content blocks of a message.  The
    default of [block.get("id", ...)] is evaluated whether or not the key is
    there, so every [tool_use] block draws a uuid. *)
Definition block_step (U : nat -> string) (acc : block_lists) (block : json)
  : result block_lists :=
  match block with
  | JObj b =>
      let block_type := dict_get_or "type" JNull b in
      if json_eq_str block_type "text" then
        Ok (mk_block_lists (text_parts acc ++ [dict_get_or "text" (JStr "") b])
              (tool_calls acc) (tool_results acc) (uuids_drawn acc))
      else if json_eq_str block_type "tool_use" then
        Ok (mk_block_lists (text_parts acc)
              (tool_calls acc ++ [tool_call_of U (uuids_drawn acc) b])
              (tool_results acc) (S (uuids_drawn acc)))
      else if json_eq_str block_type "tool_result" then
        result_content <- flatten_result_content (dict_get_or "content" (JStr "") b) ;;
        Ok (mk_block_lists (text_parts acc) (tool_calls acc)
              (tool_results acc ++ [tool_message_of b result_content]) (uuids_drawn acc))
      else Ok acc
  | _ => Ok acc
  end.

Fixpoint block_loop (U : nat -> string) (acc : block_lists) (blocks : list json)
  : result block_lists :=
  match blocks with
  | [] => Ok acc
  | block :: rest => acc' <- block_step U acc block ;; block_loop U acc' rest
  end.

Definition is_nonempty {A : Type} (l : list A) : bool :=
  match l with
  | [] => false
  | _ => true
  end.

Definition role_content_message (role : json) (content : json) : json :=
  JObj [("role", role); ("content", content)].

(** The backend messages built from the three lists of one inbound message. *)
Definition build_messages (role : json) (acc : block_lists) : result (list json) :=
  if json_eq_str role "assistant" && is_nonempty (tool_calls acc) then
    content <-
      (if is_nonempty (text_parts acc)
       then s <- py_join newline (text_parts acc) ;; Ok (JStr s)
       else Ok JNull) ;;
    Ok [JObj [("role", JStr "assistant"); ("tool_calls", JArr (tool_calls acc));
              ("content", content)]]
  else if is_nonempty (tool_results acc) then
    text_message <-
      (if is_nonempty (text_parts acc)
       then s <- py_join newline (text_parts acc) ;; Ok [role_content_message role (JStr s)]
       else Ok []) ;;
    Ok (text_message ++ tool_results acc)%list
  else if is_nonempty (text_parts acc) then
    s <- py_join newline (text_parts acc) ;; Ok [role_content_message role (JStr s)]
  else
    Ok [role_content_message role (JStr "")].

(** The body of the loop over the inbound messages: the backend messages one
    inbound message appends, and the uuid count afterwards. *)
Definition translate_message (U : nat -> string) (k : nat) (msg : json)
  : result (list json * nat) :=
  m <- as_dict msg ;;
  let role := dict_get_or "role" (JStr "user") m in
  let content := dict_get_or "content" JNull m in
  match content with
  | JStr s => Ok ([role_content_message role (JStr s)], k)
  | JArr blocks =>
      acc <- block_loop U (mk_block_lists [] [] [] k) blocks ;;
      out <- build_messages role acc ;;
      Ok (out, uuids_drawn acc)
  | other =>
      Ok ([role_content_message role (JStr (if truthy other then py_str other else ""))], k)
  end.

Fixpoint translate_messages_from (U : nat -> string) (k : nat) (messages : list json)
  : result (list json) :=
  match messages with
  | [] => Ok []
  | msg :: rest =>
      r <- translate_message U k msg ;;
      outs <- translate_messages_from U (snd r) rest ;;
      Ok (fst r ++ outs)%list
  end.

Definition _translate_messages_to_openai (U : nat -> string) (messages : list json)
  : result (list json) :=
  translate_messages_from U 0 messages.

Definition tool_to_openai (tool : json) : result json :=
  t <- as_dict tool ;;
  Ok (JObj [("type", JStr "function");
            ("function",
              JObj [("name", dict_get_or "name" (JStr "") t);
                    ("description", dict_get_or "description" (JStr "") t);
                    ("parameters", dict_get_or "input_schema" (JObj []) t)])]).

(** [None] of the source is [None] here; [tools] is the value of
    [body.get("tools")], [JNull] when the key is absent. *)
Definition _translate_tools_to_openai (tools : json) : result (option (list json)) :=
  if negb (truthy tools) then Ok None
  else
    items <- py_iter tools ;;
    oai_tools <- mapM tool_to_openai items ;;
    Ok (Some oai_tools).

Definition _translate_tool_choice (tool_choice : json) : option json :=
  match tool_choice with
  | JObj c =>
      let choice_type := dict_get_or "type" JNull c in
      if json_eq_str choice_type "auto" then Some (JStr "auto")
      else if json_eq_str choice_type "any" then Some (JStr "required")
      else if json_eq_str choice_type "tool" then
        Some (JObj [("type", JStr "function");
                    ("function", JObj [("name", dict_get_or "name" (JStr "") c)])])
      else None
  | _ => None
  end.

(** ** Format converters: backend protocol to inbound protocol *)

Definition _translate_finish_reason (reason : option string) : string :=
  let key := match reason with
             | Some r => if str_truthy r then r else ""
             | None => ""
             end in
  if String.eqb key "stop" then "end_turn"
  else if String.eqb key "length" then "max_tokens"
  else if String.eqb key "tool_calls" then "tool_use"
  else if String.eqb key "content_filter" then "end_turn"
  else "end_turn".

(** ** Streaming transcoder *)

(** *** Backend chunks

    The chunk objects of the backend client, by the attributes the
    transcoder reads.  An attribute that is missing or [None] is [None]
    here; a missing or [None] list of tool-call fragments is the empty
    list. *)

Record function_delta : Type := mk_function_delta {
  fn_name : option string;
  fn_arguments : option string
}.

Record tool_call_delta : Type := mk_tool_call_delta {
  tc_index : option Z;
  tc_id : option string;
  tc_function : option function_delta
}.

Record delta : Type := mk_delta {
  d_content : option string;
  d_tool_calls : list tool_call_delta
}.

Record choice : Type := mk_choice {
  c_delta : option delta;
  c_finish_reason : option string
}.

Record chunk : Type := mk_chunk {
  choices : list choice
}.

(** How the asynchronous iteration over the backend stream ends once its
    chunks are delivered: the iterator is exhausted, or it raises. *)
Inductive stream_end : Type :=
| Exhausted
| Fault.

Record backend_stream : Type := mk_backend_stream {
  chunks : list chunk;
  ending : stream_end
}.

(** *** Outbound events *)

Inductive content_block : Type :=
| TextContent
| ToolUseContent (id name : string).

Inductive block_delta : Type :=
| TextDelta (text : string)
| InputJsonDelta (partial_json : string).

Inductive event : Type :=
| MessageStart (msg_id : string) (model : json)
| Ping
| ContentBlockStart (index : Z) (block : content_block)
| ContentBlockDelta (index : Z) (d : block_delta)
| ContentBlockStop (index : Z)
| MessageDelta (stop_reason : string) (output_tokens : Z)
| MessageStop.

Definition event_name (e : event) : string :=
  match e with
  | MessageStart _ _ => "message_start"
  | Ping => "ping"
  | ContentBlockStart _ _ => "content_block_start"
  | ContentBlockDelta _ _ => "content_block_delta"
  | ContentBlockStop _ => "content_block_stop"
  | MessageDelta _ _ => "message_delta"
  | MessageStop => "message_stop"
  end.

Definition event_data (e : event) : json :=
  match e with
  | MessageStart msg_id model =>
      JObj [("type", JStr "message_start");
            ("message",
              JObj [("id", JStr msg_id); ("type", JStr "message");
                    ("role", JStr "assistant"); ("content", JArr []);
                    ("model", model); ("stop_reason", JNull);
                    ("usage", JObj [("input_tokens", JNum 0); ("output_tokens", JNum 0)])])]
  | Ping => JObj [("type", JStr "ping")]
  | ContentBlockStart index TextContent =>
      JObj [("type", JStr "content_block_start"); ("index", JNum index);
            ("content_block", JObj [("type", JStr "text"); ("text", JStr "")])]
  | ContentBlockStart index (ToolUseContent id name) =>
      JObj [("type", JStr "content_block_start"); ("index", JNum index);
            ("content_block",
              JObj [("type", JStr "tool_use"); ("id", JStr id); ("name", JStr name);
                    ("input", JObj [])])]
  | ContentBlockDelta index (TextDelta text) =>
      JObj [("type", JStr "content_block_delta"); ("index", JNum index);
            ("delta", JObj [("type", JStr "text_delta"); ("text", JStr text)])]
  | ContentBlockDelta index (InputJsonDelta partial_json) =>
      JObj [("type", JStr "content_block_delta"); ("index", JNum index);
            ("delta", JObj [("type", JStr "input_json_delta");
                            ("partial_json", JStr partial_json)])]
  | ContentBlockStop index =>
      JObj [("type", JStr "content_block_stop"); ("index", JNum index)]
  | MessageDelta stop_reason output_tokens =>
      JObj [("type", JStr "message_delta");
            ("delta", JObj [("stop_reason", JStr stop_reason); ("stop_sequence", JNull)]);
            ("usage", JObj [("output_tokens", JNum output_tokens)])]
  | MessageStop => JObj [("type", JStr "message_stop")]
  end.

(** The framing of one event on the wire. *)
Definition sse (e : event) : string :=
  "event: " ++ event_name e ++ newline ++ "data: " ++ json_dumps (event_data e)
  ++ newline ++ newline.

(** *** Transcoder state *)

Inductive block_type : Type :=
| TextBlock
| ToolUseBlock.

Record accumulator : Type := mk_accumulator {
  acc_id : string;
  acc_name : string;
  acc_arguments : string;
  acc_block_index : Z
}.

Record stream_state : Type := mk_stream_state {
  output_tokens : Z;
  block_index : Z;
  current_block_type : option block_type;
  tool_call_accumulators : gmap Z accumulator;
  drawn : nat
}.

(** The state before the first chunk; the message id has drawn the first
    uuid. *)
Definition initial_state : stream_state :=
  mk_stream_state 0 0 None ∅ 1.

(** Close previous block if any: its stop event, and the block index moves
    on. *)
Definition close_previous_block (st : stream_state) : list event * stream_state :=
  match current_block_type st with
  | Some _ =>
      ([ContentBlockStop (block_index st)],
       mk_stream_state (output_tokens st) (block_index st + 1) (current_block_type st)
         (tool_call_accumulators st) (drawn st))
  | None => ([], st)
  end.

(** A chunk with text content. *)
Definition handle_text (st : stream_state) (text : string) : list event * stream_state :=
  let '(opened, st1) :=
    match current_block_type st with
    | Some TextBlock => ([], st)
    | _ =>
        let '(closed, s1) := close_previous_block st in
        ((closed ++ [ContentBlockStart (block_index s1) TextContent])%list,
         mk_stream_state (output_tokens s1) (block_index s1) (Some TextBlock)
           (tool_call_accumulators s1) (drawn s1))
    end in
  ((opened ++ [ContentBlockDelta (block_index st1) (TextDelta text)])%list,
   mk_stream_state (output_tokens st1 + 1) (block_index st1) (current_block_type st1)
     (tool_call_accumulators st1) (drawn st1)).

Definition or_empty (o : option string) : string :=
  match o with
  | Some s => s
  | None => ""
  end.

(** One tool-call fragment of a chunk. *)
Definition handle_tool_call (U : nat -> string) (st : stream_state) (tc : tool_call_delta)
  : list event * stream_state :=
  let tc_idx := match tc_index tc with Some i => i | None => 0 end in
  let '(opened, st1, acc) :=
    match tool_call_accumulators st !! tc_idx with
    | Some acc => ([], st, acc)
    | None =>
        let '(closed, s1) := close_previous_block st in
        let '(tool_id, drawn') :=
          if opt_str_truthy (tc_id tc) then (or_empty (tc_id tc), drawn s1)
          else ("toolu_" ++ uuid_prefix U (drawn s1) 12, S (drawn s1)) in
        let tool_name :=
          match tc_function tc with
          | Some fn => or_empty (fn_name fn)
          | None => ""
          end in
        let acc := mk_accumulator tool_id tool_name "" (block_index s1) in
        ((closed ++ [ContentBlockStart (block_index s1) (ToolUseContent tool_id tool_name)])%list,
         mk_stream_state (output_tokens s1) (block_index s1) (Some ToolUseBlock)
           (<[tc_idx := acc]> (tool_call_accumulators s1)) drawn',
         acc)
    end in
  match tc_function tc with
  | Some fn =>
      let acc1 :=
        if opt_str_truthy (fn_name fn)
        then mk_accumulator (acc_id acc) (or_empty (fn_name fn)) (acc_arguments acc)
               (acc_block_index acc)
        else acc in
      let arg_fragment := or_empty (fn_arguments fn) in
      if str_truthy arg_fragment then
        let acc2 := mk_accumulator (acc_id acc1) (acc_name acc1)
                      (acc_arguments acc1 ++ arg_fragment) (acc_block_index acc1) in
        ((opened ++ [ContentBlockDelta (acc_block_index acc2) (InputJsonDelta arg_fragment)])%list,
         mk_stream_state (output_tokens st1) (block_index st1) (current_block_type st1)
           (<[tc_idx := acc2]> (tool_call_accumulators st1)) (drawn st1))
      else
        (opened,
         mk_stream_state (output_tokens st1) (block_index st1) (current_block_type st1)
           (<[tc_idx := acc1]> (tool_call_accumulators st1)) (drawn st1))
  | None => (opened, st1)
  end.

Fixpoint handle_tool_calls (U : nat -> string) (st : stream_state) (tcs : list tool_call_delta)
  : list event * stream_state :=
  match tcs with
  | [] => ([], st)
  | tc :: rest =>
      let '(evs1, st1) := handle_tool_call U st tc in
      let '(evs2, st2) := handle_tool_calls U st1 rest in
      ((evs1 ++ evs2)%list, st2)
  end.

(** The events that end the message: the stop event of the open block, if
    any, then the terminal pair. *)
Definition closing_events (st : stream_state) (stop_reason : string) : list event :=
  (match current_block_type st with
   | Some _ => [ContentBlockStop (block_index st)]
   | None => []
   end ++ [MessageDelta stop_reason (output_tokens st); MessageStop])%list.

(** The body of the loop for one chunk: the events it yields, the state
    afterwards, and whether the function returned. *)
Definition process_chunk (U : nat -> string) (st : stream_state) (c : chunk)
  : list event * stream_state * bool :=
  match choices c with
  | [] => ([], st, false)
  | ch :: _ =>
      let '(evs1, st1) :=
        match c_delta ch with
        | Some d =>
            if opt_str_truthy (d_content d) then handle_text st (or_empty (d_content d))
            else ([], st)
        | None => ([], st)
        end in
      let '(evs2, st2) :=
        match c_delta ch with
        | Some d => handle_tool_calls U st1 (d_tool_calls d)
        | None => ([], st1)
        end in
      if opt_str_truthy (c_finish_reason ch) then
        ((evs1 ++ evs2 ++ closing_events st2 (_translate_finish_reason (c_finish_reason ch)))%list,
         st2, true)
      else ((evs1 ++ evs2)%list, st2, false)
  end.

(** What a run of the loop leaves behind. *)
Record loop_outcome : Type := mk_loop_outcome {
  yielded : list event;
  final_state : stream_state;
  returned : bool;
  unconsumed : list chunk
}.

Fixpoint stream_loop (U : nat -> string) (st : stream_state) (cs : list chunk) : loop_outcome :=
  match cs with
  | [] => mk_loop_outcome [] st false []
  | c :: rest =>
      let '(evs, st1, ret) := process_chunk U st c in
      if ret then mk_loop_outcome evs st1 true rest
      else
        let o := stream_loop U st1 rest in
        mk_loop_outcome (evs ++ yielded o) (final_state o) (returned o) (unconsumed o)
  end.

(** The events of a whole call, in the order they are yielded, and the
    chunks left in the backend stream.  When the iteration raises, the
    handler of the exception yields its closing events and control then
    reaches the statements after the [try] block. *)
Definition stream_events (U : nat -> string) (model : json) (s : backend_stream)
  : list event * list chunk :=
  let o := stream_loop U initial_state (chunks s) in
  let st := final_state o in
  ((MessageStart ("msg_" ++ uuid_prefix U 0 24) model :: Ping :: yielded o ++
     (if returned o then []
      else
        match ending s with
        | Fault => closing_events st "end_turn"
        | Exhausted => []
        end ++ closing_events st "end_turn"))%list,
   unconsumed o).

Definition _stream_anthropic_sse (U : nat -> string) (model : json) (s : backend_stream)
  : list string :=
  map sse (fst (stream_events U model s)).

(** ** Route handlers *)

(** The decoded request body: its JSON fields, and the two fractional
    sampling parameters as floats ([None] when the key is absent). *)
Record request_body : Type := mk_request_body {
  fields : list (string * json);
  temperature : option float;
  top_p : option float
}.

(** The keyword arguments of the backend call; an optional entry is [None]
    when the key is not set. *)
Record call_kwargs : Type := mk_call_kwargs {
  kw_model : string;
  kw_messages : list json;
  kw_max_tokens : json;
  kw_temperature : float;
  kw_api_base : string;
  kw_api_key : string;
  kw_stream : json;
  kw_top_p : option float;
  kw_tools : option (list json);
  kw_tool_choice : option json
}.

(** A complete backend response; the handler only hands it on. *)
Record oai_response : Type := mk_oai_response {
  response_payload : json
}.

(** What a successful backend call returns. *)
Inductive backend_value : Type :=
| StreamValue (s : backend_stream)
| ResponseValue (r : oai_response).

(** What the backend call does: it raises, with the text of the exception,
    or it returns. *)
Inductive backend_reply : Type :=
| BackendRaises (error_text : string)
| BackendReturns (v : backend_value).

(** The collaborators of a request: whether the backend client library
    could be imported, the outcome of decoding the request body ([None]
    when decoding raises), the settings registry, the provider table, the
    backend client, and the uuid supply. *)
Record environment : Type := mk_environment {
  litellm_installed : bool;
  request_json : option request_body;
  all_settings : list (string * string);
  API_PROVIDERS : list (string * list (string * string));
  acompletion : call_kwargs -> backend_reply;
  uuid4_hex : nat -> string
}.

(** The interactions of a handler with its collaborators, in order. *)
Inductive interaction : Type :=
| ParseBody
| ReadSettings
| CallBackend (kw : call_kwargs).

Inductive response : Type :=
| JSONResponse (status_code : Z) (content : json)
| StreamingResponse (body : list string) (media_type : string)
    (headers : list (string * string))
| MessageResponse (r : oai_response) (model : json).

Record handler_outcome : Type := mk_handler_outcome {
  interactions : list interaction;
  reply : result response
}.

Fixpoint settings_get (key : string) (d : list (string * string)) : option string :=
  match d with
  | [] => None
  | (k, v) :: d' => if String.eqb k key then Some v else settings_get key d'
  end.

Fixpoint providers_get (key : string) (d : list (string * list (string * string)))
  : option (list (string * string)) :=
  match d with
  | [] => None
  | (k, v) :: d' => if String.eqb k key then Some v else providers_get key d'
  end.

(** [needle in haystack] on strings. *)
Fixpoint str_contains (needle haystack : string) : bool :=
  String.prefix needle haystack ||
  match haystack with
  | EmptyString => false
  | String _ rest => str_contains needle rest
  end.

Definition error_content (type message : string) : json :=
  JObj [("error", JObj [("type", JStr type); ("message", JStr message)])].

(** When the backend iterates a value that is not a stream, the iteration
    raises at once. *)
Definition iterate (v : backend_value) : backend_stream :=
  match v with
  | StreamValue s => s
  | ResponseValue _ => mk_backend_stream [] Fault
  end.

Definition tools_present (oai_tools : option (list json)) : bool :=
  match oai_tools with
  | Some l => is_nonempty l
  | None => false
  end.

(** The request builder of [proxy_messages]: from the system prompt to the
    keyword arguments of the backend call. *)
Definition build_call_kwargs (U : nat -> string) (body : request_body)
    (model : json) (api_base auth_token : string) (stream : json) : result call_kwargs :=
  let system := dict_get_or "system" JNull (fields body) in
  system_text <- (if truthy system then _translate_system_prompt system else Ok "") ;;
  let system_message := role_content_message (JStr "system") (JStr (_COMPAT_PREAMBLE ++ system_text)) in
  anthropic_messages <- py_iter (dict_get_or "messages" (JArr []) (fields body)) ;;
  translated <- _translate_messages_to_openai U anthropic_messages ;;
  oai_tools <- _translate_tools_to_openai (dict_get_or "tools" JNull (fields body)) ;;
  let tool_choice := _translate_tool_choice (dict_get_or "tool_choice" JNull (fields body)) in
  let max_tokens := dict_get_or "max_tokens" (JNum 4096) (fields body) in
  let temperature0 := match temperature body with Some t => t | None => 1.0%float end in
  let temperature1 :=
    if tools_present oai_tools && PrimFloat.ltb 0.6%float temperature0
    then 0.6%float else temperature0 in
  Ok (mk_call_kwargs ("openai/" ++ py_str model) (system_message :: translated) max_tokens
        temperature1 api_base auth_token stream (top_p body)
        (if tools_present oai_tools then oai_tools else None)
        (if tools_present oai_tools
         then match tool_choice with
              | Some c => Some c
              | None => Some (JStr "auto")
              end
         else None)).

Definition first_truthy (a : json) (b c : string) : json :=
  if truthy a then a
  else if str_truthy b then JStr b
  else JStr c.

Definition sse_headers : list (string * string) :=
  [("Cache-Control", "no-cache"); ("Connection", "keep-alive"); ("X-Accel-Buffering", "no")].

(** [POST /proxy/v1/messages]. *)
Definition proxy_messages (env : environment) : handler_outcome :=
  if negb (litellm_installed env) then
    mk_handler_outcome []
      (Ok (JSONResponse 501
             (error_content "not_implemented"
                "litellm is not installed. Run: pip install litellm")))
  else
    match request_json env with
    | None =>
        mk_handler_outcome [ParseBody]
          (Ok (JSONResponse 400 (error_content "invalid_request" "Invalid JSON body")))
    | Some body =>
        let provider_id :=
          match settings_get "api_provider" (all_settings env) with
          | Some p => p
          | None => "claude"
          end in
        match providers_get provider_id (API_PROVIDERS env) with
        | None | Some [] =>
            mk_handler_outcome [ParseBody; ReadSettings]
              (Ok (JSONResponse 500
                     (error_content "configuration_error" ("Unknown provider: " ++ provider_id))))
        | Some provider =>
            let api_base :=
              if opt_str_truthy (settings_get "api_base_url" (all_settings env))
              then or_empty (settings_get "api_base_url" (all_settings env))
              else or_empty (settings_get "base_url" provider) in
            let auth_token := or_empty (settings_get "api_auth_token" (all_settings env)) in
            let model :=
              first_truthy (dict_get_or "model" JNull (fields body))
                (or_empty (settings_get "api_model" (all_settings env)))
                (or_empty (settings_get "default_model" provider)) in
            let stream := dict_get_or "stream" (JBool false) (fields body) in
            if negb (str_truthy api_base) then
              mk_handler_outcome [ParseBody; ReadSettings]
                (Ok (JSONResponse 500
                       (error_content "configuration_error"
                          "No API base URL configured for provider")))
            else
              match build_call_kwargs (uuid4_hex env) body model api_base auth_token stream with
              | Raise e => mk_handler_outcome [ParseBody; ReadSettings] (Raise e)
              | Ok kw =>
                  mk_handler_outcome [ParseBody; ReadSettings; CallBackend kw]
                    match acompletion env kw with
                    | BackendRaises error_text =>
                        let error_msg :=
                          if str_contains "AuthenticationError" error_text
                             || str_contains "401" error_text
                          then "Authentication failed with " ++ provider_id
                               ++ ". Check your API key."
                          else error_text in
                        Ok (JSONResponse 502 (error_content "proxy_error" error_msg))
                    | BackendReturns v =>
                        if truthy stream then
                          Ok (StreamingResponse
                                (_stream_anthropic_sse (uuid4_hex env) model (iterate v))
                                "text/event-stream" sse_headers)
                        else
                          match v with
                          | ResponseValue r => Ok (MessageResponse r model)
                          | StreamValue _ => Raise AttributeError
                          end
                    end
              end
        end
    end.

(** [POST /proxy/v1/messages/count_tokens]. *)
Definition proxy_count_tokens (env : environment) : handler_outcome :=
  match request_json env with
  | None =>
      mk_handler_outcome [ParseBody]
        (Ok (JSONResponse 400 (error_content "invalid_request" "Invalid JSON body")))
  | Some body =>
      mk_handler_outcome [ParseBody]
        (n <- _count_tokens_estimate (fields body) ;;
         Ok (JSONResponse 200 (JObj [("input_tokens", JNum n)])))
  end.

(** ** Vocabulary of the statements *)

(** Chunks of the shapes the statements speak about: a text chunk, a chunk
    with one tool-call fragment, and a chunk that only carries a finish
    reason. *)
Definition text_chunk (text : string) : chunk :=
  mk_chunk [mk_choice (Some (mk_delta (Some text) [])) None].

Definition tool_chunk (index : Z) (id name arguments : option string) : chunk :=
  mk_chunk
    [mk_choice
       (Some (mk_delta None
                [mk_tool_call_delta (Some index) id (Some (mk_function_delta name arguments))]))
       None].

Definition finish_chunk (reason : string) : chunk :=
  mk_chunk [mk_choice (Some (mk_delta None [])) (Some reason)].

(** A uuid supply for the closed examples. *)
Definition sample_uuid (k : nat) : string := "0123456789abcdef0123456789abcdef".

(** The chunk carries a finish reason, as the loop tests it. *)
Definition chunk_finishes (c : chunk) : bool :=
  match choices c with
  | [] => false
  | ch :: _ => opt_str_truthy (c_finish_reason ch)
  end.

Definition is_message_delta (e : event) : bool :=
  match e with
  | MessageDelta _ _ => true
  | _ => false
  end.

Definition is_message_stop (e : event) : bool :=
  match e with
  | MessageStop => true
  | _ => false
  end.

(** The block indices of the [content_block_start] events, in order. *)
Definition start_indices (evs : list event) : list Z :=
  flat_map (fun e => match e with ContentBlockStart i _ => [i] | _ => [] end) evs.

(** A scan of an event sequence that follows which block is open and which
    index the next block must take: a start is accepted only when no block
    is open and its index is the next one. *)
Definition nest_step (ns : option Z * Z) (e : event) : option (option Z * Z) :=
  match e with
  | ContentBlockStart i _ =>
      match fst ns with
      | None => if i =? snd ns then Some (Some i, snd ns + 1) else None
      | Some _ => None
      end
  | ContentBlockStop i =>
      match fst ns with
      | Some j => if i =? j then Some (None, snd ns) else Some ns
      | None => Some ns
      end
  | _ => Some ns
  end.

Fixpoint nest_run (ns : option Z * Z) (evs : list event) : option (option Z * Z) :=
  match evs with
  | [] => Some ns
  | e :: rest =>
      match nest_step ns e with
      | Some ns' => nest_run ns' rest
      | None => None
      end
  end.

(** The scan state that matches a transcoder state. *)
Definition nesting_of (st : stream_state) : option Z * Z :=
  match current_block_type st with
  | None => (None, block_index st)
  | Some _ => (Some (block_index st), block_index st + 1)
  end.

(** The streams of the worked examples. *)
Definition hi_there_chunks : list chunk :=
  [text_chunk "Hi"; text_chunk " there"; finish_chunk "stop"].

Definition two_tool_calls_chunks : list chunk :=
  [tool_chunk 0 (Some "call_a") (Some "get_weather") None;
   tool_chunk 0 None None (Some "{");
   tool_chunk 0 None None (Some "}");
   tool_chunk 1 (Some "call_b") (Some "get_time") None;
   tool_chunk 1 None None (Some "{}");
   finish_chunk "tool_calls"].

(** A tool call opens, a text chunk follows, and then a further argument
    fragment of the same tool call arrives. *)
Definition late_fragment_chunks : list chunk :=
  [tool_chunk 0 (Some "call_a") (Some "get_weather") None;
   text_chunk "x";
   tool_chunk 0 None None (Some "{}")].

(** The events a chunk can yield short of the terminal pair. *)
Definition is_block_event (e : event) : bool :=
  match e with
  | ContentBlockStart _ _ | ContentBlockDelta _ _ | ContentBlockStop _ => true
  | _ => false
  end.

(** Two tool calls are announced one after the other, and the arguments of
    the first arrive once the second has opened. *)
Definition interleaved_tool_calls_chunks : list chunk :=
  [tool_chunk 0 (Some "call_a") (Some "get_weather") None;
   tool_chunk 1 (Some "call_b") (Some "get_time") None;
   tool_chunk 0 None None (Some "{}");
   finish_chunk "tool_calls"].

(** *** Message translation, stated over the blocks of a message *)

Definition block_fields (block : json) : list (string * json) :=
  match block with
  | JObj b => b
  | _ => []
  end.

(** The block is a dictionary whose [type] is [t]. *)
Definition is_block_of_type (t : string) (block : json) : bool :=
  match block with
  | JObj b => json_eq_str (dict_get_or "type" JNull b) t
  | _ => false
  end.

(** The text parts of a block list: the [text] of every [text] block. *)
Definition text_parts_of (blocks : list json) : list json :=
  map (fun block => dict_get_or "text" (JStr "") (block_fields block))
    (List.filter (is_block_of_type "text") blocks).

(** The backend message of one [tool_result] block: role [tool], the
    referenced [tool_use_id] as [tool_call_id], and the flattened text of the
    result content. *)
Definition tool_result_message (block : json) : result json :=
  result_content <-
    flatten_result_content (dict_get_or "content" (JStr "") (block_fields block)) ;;
  Ok (tool_message_of (block_fields block) result_content).

Definition tool_result_messages (blocks : list json) : result (list json) :=
  mapM tool_result_message (List.filter (is_block_of_type "tool_result") blocks).

(** The translation of a message with [tool_result] blocks: the text
    message, present exactly when the message has a text block, then one
    tool message per [tool_result] block in order. *)
Definition tool_result_translation (role : json) (blocks : list json) : result (list json) :=
  tool_messages <- tool_result_messages blocks ;;
  text_message <-
    (if is_nonempty (text_parts_of blocks)
     then s <- py_join newline (text_parts_of blocks) ;;
          Ok [role_content_message role (JStr s)]
     else Ok []) ;;
  Ok (text_message ++ tool_messages)%list.

(** The same translation with the text message present exactly when the
    joined text is not the empty string. *)
Definition tool_result_translation_nonempty_text (role : json) (blocks : list json)
  : result (list json) :=
  tool_messages <- tool_result_messages blocks ;;
  s <- py_join newline (text_parts_of blocks) ;;
  Ok ((if str_truthy s then [role_content_message role (JStr s)] else [])
        ++ tool_messages)%list.

Definition text_block (text : string) : json :=
  JObj [("type", JStr "text"); ("text", JStr text)].

Definition tool_result_block (tool_use_id content : string) : json :=
  JObj [("type", JStr "tool_result"); ("tool_use_id", JStr tool_use_id);
        ("content", JStr content)].

Definition user_message (blocks : list json) : list (string * json) :=
  [("role", JStr "user"); ("content", JArr blocks)].

(** *** The request builder, stated over the request body *)

(** The system field has one of the shapes of the data model: absent (or
    null), a string, or a list of blocks. *)
Definition system_is_prompt (system : json) : bool :=
  match system with
  | JNull | JStr _ | JArr _ => true
  | _ => false
  end.

(** The translated user-supplied system text: empty when there is no system
    field, the converter's result otherwise. *)
Definition translated_system_text (system : json) : result string :=
  match system with
  | JNull => Ok ""
  | _ => _translate_system_prompt system
  end.

(** The temperature of the inbound request, 1.0 when it has none. *)
Definition inbound_temperature (body : request_body) : float :=
  match temperature body with
  | Some t => t
  | None => 1.0%float
  end.

Definition sample_tool : json :=
  JObj [("name", JStr "get_weather"); ("description", JStr "Weather of a city");
        ("input_schema", JObj [("type", JStr "object")])].

(** A request with one user message, the given tool definitions and the
    given temperature. *)
Definition sample_request (tools : list json) (t : float) : request_body :=
  mk_request_body
    [("model", JStr "m");
     ("messages", JArr [JObj [("role", JStr "user"); ("content", JStr "hello")]]);
     ("tools", JArr tools)]
    (Some t) None.

(** A request whose system prompt is a list of two text blocks. *)
Definition sample_system_request : request_body :=
  mk_request_body
    [("system", JArr [text_block "Be brief."; text_block "Use tools."]);
     ("messages", JArr [JObj [("role", JStr "user"); ("content", JStr "hello")]])]
    None None.

(** *** The token estimate, stated as a sum of characters *)

Fixpoint sum_chars (chars : json -> result Z) (l : list json) : result Z :=
  match l with
  | [] => Ok 0
  | x :: l' => n <- chars x ;; m <- sum_chars chars l' ;; Ok (n + m)
  end.

Fixpoint sum_Z (l : list Z) : Z :=
  match l with
  | [] => 0
  | n :: l' => n + sum_Z l'
  end.

Definition str_len (s : string) : Z := Z.of_nat (String.length s).

(** The length of the JSON serialization of the [input] field of a block,
    when it has one. *)
Definition block_input_chars (block : json) : Z :=
  match dict_get "input" (block_fields block) with
  | Some v => str_len (json_dumps v)
  | None => 0
  end.

(** The block is a dictionary without an [input] field. *)
Definition lacks_input (block : json) : bool :=
  match block with
  | JObj b => match dict_get "input" b with Some _ => false | None => true end
  | _ => false
  end.

(** The characters of a block of a message: the length of its [text] field
    plus the length of its serialized [input] field. *)
Definition counted_block_chars (block : json) : result Z :=
  n <- system_block_chars block ;; Ok (n + block_input_chars block).

Definition counted_message_chars (msg : json) : result Z :=
  m <- as_dict msg ;;
  match dict_get_or "content" (JStr "") m with
  | JStr s => Ok (str_len s)
  | JArr blocks => sum_chars counted_block_chars blocks
  | _ => Ok 0
  end.

(** The characters of the system field: the length of a string, or the sum
    of the lengths of the [text] fields of the dictionaries of a list, with
    no separators. *)
Definition counted_system_chars (system : json) : result Z :=
  match system with
  | JStr s => Ok (str_len s)
  | JArr blocks => sum_chars system_block_chars blocks
  | _ => Ok 0
  end.

Definition counted_total_chars (body : list (string * json)) : result Z :=
  s <- counted_system_chars (dict_get_or "system" (JStr "") body) ;;
  msgs <- py_iter (dict_get_or "messages" (JArr []) body) ;;
  m <- sum_chars counted_message_chars msgs ;;
  Ok (s + m).

(** The number of blocks without an [input] field in the block lists of the
    messages. *)
Definition message_inputless (msg : json) : Z :=
  match dict_get_or "content" (JStr "") (block_fields msg) with
  | JArr blocks => Z.of_nat (List.length (List.filter lacks_input blocks))
  | _ => 0
  end.

Definition inputless_blocks (body : list (string * json)) : Z :=
  match py_iter (dict_get_or "messages" (JArr []) body) with
  | Ok msgs => sum_Z (map message_inputless msgs)
  | Raise _ => 0
  end.

(** The total the estimate would divide if the system text were counted
    after flattening by [_translate_system_prompt], text blocks by their
    text and tool-use blocks by their serialized input. *)
Definition flattened_block_chars (block : json) : result Z :=
  if is_block_of_type "text" block then
    py_len (dict_get_or "text" (JStr "") (block_fields block))
  else if is_block_of_type "tool_use" block then
    Ok (str_len (json_dumps (dict_get_or "input" (JObj []) (block_fields block))))
  else Ok 0.

Definition flattened_message_chars (msg : json) : result Z :=
  m <- as_dict msg ;;
  match dict_get_or "content" (JStr "") m with
  | JStr s => Ok (str_len s)
  | JArr blocks => sum_chars flattened_block_chars blocks
  | _ => Ok 0
  end.

Definition flattened_total_chars (body : list (string * json)) : result Z :=
  system_text <- _translate_system_prompt (dict_get_or "system" (JStr "") body) ;;
  msgs <- py_iter (dict_get_or "messages" (JArr []) body) ;;
  m <- sum_chars flattened_message_chars msgs ;;
  Ok (str_len system_text + m).

Definition flattened_estimate (body : list (string * json)) : result Z :=
  total <- flattened_total_chars body ;; Ok (Z.max 1 (total / 4)).

(** A body whose system prompt is a list of two text blocks. *)
Definition two_block_system_body : list (string * json) :=
  [("system", JArr [text_block "abcd"; text_block "efg"])].

(** A body with one message whose content is one text block. *)
Definition text_block_message_body : list (string * json) :=
  [("messages", JArr [JObj (user_message [text_block "abcdef"])])].

(** A body with a string system prompt and a tool-use block that has an
    input. *)
Definition tool_use_body : list (string * json) :=
  [("system", JStr "Be brief.");
   ("messages",
     JArr [JObj [("role", JStr "assistant");
                 ("content",
                   JArr [JObj [("type", JStr "tool_use"); ("id", JStr "T1");
                               ("name", JStr "get_weather");
                               ("input", JObj [("city", JStr "Paris")])]])]])].

(** *** Environments of the worked examples *)

Definition sample_settings : list (string * string) :=
  [("api_provider", "ionos"); ("api_auth_token", "token")].

Definition sample_providers : list (string * list (string * string)) :=
  [("ionos", [("base_url", "http://backend"); ("default_model", "llama")])].

Definition streaming_request : request_body :=
  mk_request_body
    [("model", JStr "m"); ("stream", JBool true);
     ("messages", JArr [JObj [("role", JStr "user"); ("content", JStr "hello")]])]
    None None.

(** The backend client library is installed and the backend call raises an
    authentication error. *)
Definition failing_backend_environment : environment :=
  mk_environment true (Some streaming_request) sample_settings sample_providers
    (fun _ => BackendRaises "AuthenticationError: invalid key") sample_uuid.

(** The backend client library is not installed. *)
Definition no_litellm_environment : environment :=
  mk_environment false (Some streaming_request) sample_settings sample_providers
    (fun _ => BackendRaises "no backend client") sample_uuid.

(** The environment with the backend client library installed or not, all
    else equal. *)
Definition with_litellm (installed : bool) (env : environment) : environment :=
  mk_environment installed (request_json env) (all_settings env) (API_PROVIDERS env)
    (acompletion env) (uuid4_hex env).

Definition configured_provider (env : environment) : string :=
  match settings_get "api_provider" (all_settings env) with
  | Some p => p
  | None => "claude"
  end.

(** Inversion of a sequence of steps that returned. *)
Ltac bind_inv H :=
  repeat match type of H with
         | bind ?c _ = Ok _ =>
             let E := fresh "E" in
             destruct c eqn:E; simpl in H; [|discriminate H]
         end.

(** *** Further vocabulary for runs of the transcoder *)

(** The block indices of the [content_block_stop] events, in order. *)
Definition stop_indices (evs : list event) : list Z :=
  flat_map (fun e => match e with ContentBlockStop i => [i] | _ => [] end) evs.

(** The payloads of the [content_block_delta] events, in order. *)
Definition delta_payloads (evs : list event) : list block_delta :=
  flat_map (fun e => match e with ContentBlockDelta _ d => [d] | _ => [] end) evs.

(** What a tool-call fragment carries for the receiver: its argument
    fragment, when it has a non-empty one. *)
Definition fragment_payload (tc : tool_call_delta) : list block_delta :=
  match tc_function tc with
  | Some fn =>
      if opt_str_truthy (fn_arguments fn)
      then [InputJsonDelta (or_empty (fn_arguments fn))]
      else []
  | None => []
  end.

(** What a chunk carries for the receiver: the text of its first choice,
    when non-empty, then the argument fragments of its tool calls. *)
Definition chunk_payloads (c : chunk) : list block_delta :=
  match choices c with
  | [] => []
  | ch :: _ =>
      match c_delta ch with
      | Some d =>
          ((if opt_str_truthy (d_content d) then [TextDelta (or_empty (d_content d))] else [])
             ++ flat_map fragment_payload (d_tool_calls d))%list
      | None => []
      end
  end.

Definition chunk_has_text (c : chunk) : bool :=
  match choices c with
  | [] => false
  | ch :: _ =>
      match c_delta ch with
      | Some d => opt_str_truthy (d_content d)
      | None => false
      end
  end.

(** The chunks up to and including the first one that carries a finish
    reason, and the chunks after it. *)
Fixpoint consumed (cs : list chunk) : list chunk :=
  match cs with
  | [] => []
  | c :: rest => if chunk_finishes c then [c] else c :: consumed rest
  end.

Fixpoint after_finish (cs : list chunk) : list chunk :=
  match cs with
  | [] => []
  | c :: rest => if chunk_finishes c then rest else after_finish rest
  end.

(** The stop reason of a run: the translated finish reason of the first
    chunk that carries one, [end_turn] when there is none. *)
Fixpoint final_stop_reason (cs : list chunk) : string :=
  match cs with
  | [] => "end_turn"
  | c :: rest =>
      if chunk_finishes c
      then match choices c with
           | ch :: _ => _translate_finish_reason (c_finish_reason ch)
           | [] => "end_turn"
           end
      else final_stop_reason rest
  end.

(** The number of consumed chunks that carry text. *)
Definition text_fragments (cs : list chunk) : Z :=
  Z.of_nat (List.length (List.filter chunk_has_text (consumed cs))).

(** The index of the open block, if one is open. *)
Definition open_part (st : stream_state) : list Z :=
  match current_block_type st with
  | Some _ => [block_index st]
  | None => []
  end.

(** A stretch of a run from state [st] to state [st']: it yields block
    events only, its deltas carry [payloads], it counts [texts] output
    tokens, and it stops every block it finds or opens except the one left
    open. *)
Definition segment_ok (st : stream_state) (payloads : list block_delta) (texts : Z)
    (evs : list event) (st' : stream_state) : Prop :=
  forallb is_block_event evs = true /\
  delta_payloads evs = payloads /\
  output_tokens st' = output_tokens st + texts /\
  (open_part st ++ start_indices evs)%list = (stop_indices evs ++ open_part st')%list.

(** The events after the loop body of a run. *)
Definition run_tail (s : backend_stream) (st : stream_state) : list event :=
  if existsb chunk_finishes (chunks s)
  then closing_events st (final_stop_reason (chunks s))
  else
    match ending s with
    | Exhausted => closing_events st "end_turn"
    | Fault => (closing_events st "end_turn" ++ closing_events st "end_turn")%list
    end.

(** The run ends by a finish reason or by the exhaustion of the stream, not
    by a fault. *)
Definition ends_normally (s : backend_stream) : bool :=
  existsb chunk_finishes (chunks s)
  || match ending s with Exhausted => true | Fault => false end.

(** A scan of an event sequence that collects the indices of the blocks
    started so far and accepts a delta only for one of them. *)
Fixpoint started_scan (started : list Z) (evs : list event) : option (list Z) :=
  match evs with
  | [] => Some started
  | ContentBlockStart i _ :: rest => started_scan (i :: started) rest
  | ContentBlockDelta i _ :: rest =>
      if existsb (Z.eqb i) started then started_scan started rest else None
  | _ :: rest => started_scan started rest
  end.

(** The started blocks cover a transcoder state: the block of every
    accumulator has been started, and so has the open block. *)
Definition started_ok (started : list Z) (st : stream_state) : Prop :=
  (forall (k : Z) (a : accumulator),
     tool_call_accumulators st !! k = Some a -> In (acc_block_index a) started) /\
  (current_block_type st <> None -> In (block_index st) started).

(** *** Further vocabulary for the converters *)

(** A message whose content is a plain string. *)
Definition plain_message (rt : string * string) : json :=
  JObj [("role", JStr (fst rt)); ("content", JStr (snd rt))].

(** The backend envelope of a tool definition. *)
Definition tool_envelope (t : list (string * json)) : json :=
  JObj [("type", JStr "function");
        ("function",
          JObj [("name", dict_get_or "name" (JStr "") t);
                ("description", dict_get_or "description" (JStr "") t);
                ("parameters", dict_get_or "input_schema" (JObj []) t)])].

(** The tool calls of the [tool_use] blocks of a block list, in order, the
    first of them drawing uuid number [k]. *)
Fixpoint tool_calls_from (U : nat -> string) (k : nat) (blocks : list json) : list json :=
  match blocks with
  | [] => []
  | block :: rest =>
      if is_block_of_type "tool_use" block
      then tool_call_of U k (block_fields block) :: tool_calls_from U (S k) rest
      else tool_calls_from U k rest
  end.

(** The translation of an assistant message with [tool_use] blocks: one
    assistant message with the tool calls, its content the joined text or
    [None]. *)
Definition assistant_tool_call_translation (U : nat -> string) (k : nat)
    (blocks : list json) : result (list json) :=
  _ <- tool_result_messages blocks ;;
  content <-
    (if is_nonempty (text_parts_of blocks)
     then s <- py_join newline (text_parts_of blocks) ;; Ok (JStr s)
     else Ok JNull) ;;
  Ok [JObj [("role", JStr "assistant");
            ("tool_calls", JArr (tool_calls_from U k blocks));
            ("content", content)]].

Definition tool_use_block (id name : string) (input : json) : json :=
  JObj [("type", JStr "tool_use"); ("id", JStr id); ("name", JStr name); ("input", input)].

(** ** Non-streaming response builder *)

(** The complete response object of the backend client, by the attributes
    the builder reads.  An attribute that is [None] is [None] here; a
    missing or [None] list of tool calls is the empty list. *)
Record completion_function : Type := mk_completion_function {
  cf_name : option string;
  cf_arguments : option string
}.

Record completion_tool_call : Type := mk_completion_tool_call {
  ctc_id : option string;
  ctc_function : option completion_function
}.

Record completion_message : Type := mk_completion_message {
  cm_content : option string;
  cm_tool_calls : list completion_tool_call
}.

Record completion_choice : Type := mk_completion_choice {
  cc_message : option completion_message;
  cc_finish_reason : option string
}.

Record completion_usage : Type := mk_completion_usage {
  prompt_tokens : option Z;
  completion_tokens : option Z
}.

Record completion : Type := mk_completion {
  completion_choices : list completion_choice;
  usage_of : option completion_usage
}.

Definition opt_str_json (o : option string) : json :=
  match o with
  | Some s => JStr s
  | None => JNull
  end.

(** [getattr(usage, name, 0) or 0]. *)
Definition token_count (count : option Z) : Z :=
  match count with
  | Some n => n
  | None => 0
  end.

(** One round of the loop over the tool calls.  [loads] is [json.loads]:
    [None] when it raises a decoding error.  A tool call without a function
    makes the argument access raise an [AttributeError], which is caught,
    and the name access raise it again, which is not; arguments that are
    [None] make [json.loads] raise a [TypeError], which is not caught. *)
Definition tool_use_block_of (loads : string -> option json) (U : nat -> string) (k : nat)
    (tc : completion_tool_call) : result (json * nat) :=
  input_data <-
    match ctc_function tc with
    | Some f =>
        match cf_arguments f with
        | Some arguments =>
            Ok match loads arguments with
               | Some v => v
               | None => JObj []
               end
        | None => Raise TypeError
        end
    | None => Ok (JObj [])
    end ;;
  let '(id, k') :=
    if opt_str_truthy (ctc_id tc) then (or_empty (ctc_id tc), k)
    else ("toolu_" ++ uuid_prefix U k 12, S k) in
  name <-
    match ctc_function tc with
    | Some f => Ok (opt_str_json (cf_name f))
    | None => Raise AttributeError
    end ;;
  Ok (JObj [("type", JStr "tool_use"); ("id", JStr id); ("name", name);
            ("input", input_data)], k').

Fixpoint tool_use_blocks (loads : string -> option json) (U : nat -> string) (k : nat)
    (tcs : list completion_tool_call) : result (list json * nat) :=
  match tcs with
  | [] => Ok ([], k)
  | tc :: rest =>
      r <- tool_use_block_of loads U k tc ;;
      rs <- tool_use_blocks loads U (snd r) rest ;;
      Ok (fst r :: fst rs, snd rs)
  end.

Definition first_choice (oai_response : completion) : option completion_choice :=
  match completion_choices oai_response with
  | c :: _ => Some c
  | [] => None
  end.

Definition first_message (oai_response : completion) : option completion_message :=
  match first_choice oai_response with
  | Some c => cc_message c
  | None => None
  end.

Definition _build_anthropic_response (loads : string -> option json) (U : nat -> string)
    (oai_response : completion) (model : json) : result json :=
  r <-
    match first_message oai_response with
    | Some message =>
        tb <- tool_use_blocks loads U 0 (cm_tool_calls message) ;;
        Ok (((if opt_str_truthy (cm_content message)
              then [JObj [("type", JStr "text"); ("text", JStr (or_empty (cm_content message)))]]
              else []) ++ fst tb)%list,
            snd tb)
    | None => Ok ([], 0%nat)
    end ;;
  let usage := usage_of oai_response in
  let input_tokens :=
    token_count match usage with Some u => prompt_tokens u | None => None end in
  let output_tokens :=
    token_count match usage with Some u => completion_tokens u | None => None end in
  let stop_reason :=
    _translate_finish_reason
      match first_choice oai_response with
      | Some c => cc_finish_reason c
      | None => None
      end in
  Ok (JObj [("id", JStr ("msg_" ++ uuid_prefix U (snd r) 24));
            ("type", JStr "message");
            ("role", JStr "assistant");
            ("content", JArr (fst r));
            ("model", model);
            ("stop_reason", JStr stop_reason);
            ("stop_sequence", JNull);
            ("usage", JObj [("input_tokens", JNum input_tokens);
                            ("output_tokens", JNum output_tokens)])]).

(** *** Vocabulary for the response builder *)

(** The tool call has a function whose arguments are a string. *)
Definition call_is_well_formed (tc : completion_tool_call) : bool :=
  match ctc_function tc with
  | Some f => match cf_arguments f with Some _ => true | None => false end
  | None => false
  end.

(** The input of the block of a tool call: the decoded arguments, the empty
    object when they do not decode. *)
Definition decoded_input (loads : string -> option json) (tc : completion_tool_call) : json :=
  match ctc_function tc with
  | Some f =>
      match cf_arguments f with
      | Some arguments =>
          match loads arguments with
          | Some v => v
          | None => JObj []
          end
      | None => JObj []
      end
  | None => JObj []
  end.

(** The block is the tool_use block of the tool call: its name, its decoded
    input, and its id when it has a non-empty one. *)
Definition block_of_call (loads : string -> option json) (tc : completion_tool_call)
    (block : json) : Prop :=
  exists id,
    block = JObj [("type", JStr "tool_use"); ("id", JStr id);
                  ("name", opt_str_json match ctc_function tc with
                                        | Some f => cf_name f
                                        | None => None
                                        end);
                  ("input", decoded_input loads tc)] /\
    (opt_str_truthy (ctc_id tc) = true -> id = or_empty (ctc_id tc)).

Definition response_calls (oai_response : completion) : list completion_tool_call :=
  match first_message oai_response with
  | Some message => cm_tool_calls message
  | None => []
  end.


(** [json.loads] that fails on every string, for examples whose argument
    strings are not JSON. *)
Definition loads_fails (s : string) : option json := None.

Definition sample_completion : completion :=
  mk_completion
    [mk_completion_choice
       (Some (mk_completion_message (Some "Checking.")
                [mk_completion_tool_call (Some "call_a")
                   (Some (mk_completion_function (Some "get_weather") (Some "{oops")))]))
       (Some "tool_calls")]
    None.

(** *** Vocabulary for the framing of events *)

(** The character is printable ASCII: between the space and the tilde. *)
Definition is_printable_ascii (c : ascii) : bool :=
  ((32 <=? N_of_ascii c) && (N_of_ascii c <=? 126))%N.

Fixpoint all_chars (p : ascii -> bool) (s : string) : bool :=
  match s with
  | EmptyString => true
  | String c s' => p c && all_chars p s'
  end.

(** ** The streaming transcoder: block nesting *)

Lemma nest_run_app (ns : option Z * Z) (a b : list event) :
  nest_run ns (a ++ b) =
  match nest_run ns a with
  | Some ns' => nest_run ns' b
  | None => None
  end.
Proof.
  revert ns. induction a as [|e a IH]; intros ns; simpl; [reflexivity|].
  destruct (nest_step ns e); [apply IH|reflexivity].
Qed.

Lemma close_previous_block_nesting (st : stream_state) :
  nest_run (nesting_of st) (fst (close_previous_block st)) =
    Some (None, block_index (snd (close_previous_block st))).
Proof.
  unfold close_previous_block, nesting_of.
  destruct (current_block_type st); simpl; [rewrite Z.eqb_refl|]; auto.
Qed.

Lemma handle_text_nesting (st : stream_state) (text : string) :
  nest_run (nesting_of st) (fst (handle_text st text)) =
    Some (nesting_of (snd (handle_text st text))).
Proof.
  unfold handle_text.
  destruct (current_block_type st) as [[|]|] eqn:E.
  - simpl. unfold nesting_of. simpl. rewrite E. reflexivity.
  - pose proof (close_previous_block_nesting st) as H.
    destruct (close_previous_block st) as [closed s1]. simpl in *.
    rewrite <- app_assoc, nest_run_app, H. simpl. rewrite Z.eqb_refl. reflexivity.
  - pose proof (close_previous_block_nesting st) as H.
    destruct (close_previous_block st) as [closed s1]. simpl in *.
    rewrite <- app_assoc, nest_run_app, H. simpl. rewrite Z.eqb_refl. reflexivity.
Qed.

(** A delta event leaves the scan where it is. *)
Lemma nest_run_delta (ns : option Z * Z) (evs : list event) (i : Z) (d : block_delta) :
  nest_run ns (evs ++ [ContentBlockDelta i d]) = nest_run ns evs.
Proof.
  rewrite nest_run_app. destruct (nest_run ns evs); reflexivity.
Qed.

Lemma handle_tool_call_nesting (U : nat -> string) (st : stream_state) (tc : tool_call_delta) :
  nest_run (nesting_of st) (fst (handle_tool_call U st tc)) =
    Some (nesting_of (snd (handle_tool_call U st tc))).
Proof.
  unfold handle_tool_call.
  destruct (tool_call_accumulators st !! _) as [acc|].
  - destruct (tc_function tc) as [fn|]; [|reflexivity].
    destruct (str_truthy _); reflexivity.
  - pose proof (close_previous_block_nesting st) as H.
    destruct (close_previous_block st) as [closed s1]. simpl in H.
    destruct (opt_str_truthy (tc_id tc));
      (destruct (tc_function tc) as [fn|];
       [destruct (str_truthy _)|]; simpl;
       rewrite ?nest_run_delta, nest_run_app, H; simpl; rewrite Z.eqb_refl; reflexivity).
Qed.

Lemma handle_tool_calls_nesting (U : nat -> string) (tcs : list tool_call_delta)
    (st : stream_state) :
  nest_run (nesting_of st) (fst (handle_tool_calls U st tcs)) =
    Some (nesting_of (snd (handle_tool_calls U st tcs))).
Proof.
  revert st. induction tcs as [|tc tcs IH]; intros st; simpl; [reflexivity|].
  pose proof (handle_tool_call_nesting U st tc) as H1.
  destruct (handle_tool_call U st tc) as [evs1 st1]. simpl in H1.
  pose proof (IH st1) as H2.
  destruct (handle_tool_calls U st1 tcs) as [evs2 st2]. simpl in *.
  rewrite nest_run_app, H1. exact H2.
Qed.

(** The closing events are accepted from the scan state of the transcoder
    state they are computed from, and from any state with no open block. *)
Lemma closing_events_nesting (st : stream_state) (reason : string) :
  nest_run (nesting_of st) (closing_events st reason) = Some (None, snd (nesting_of st)).
Proof.
  unfold closing_events, nesting_of.
  destruct (current_block_type st); simpl; [rewrite Z.eqb_refl|]; reflexivity.
Qed.

Lemma closing_events_closed (st : stream_state) (reason : string) (next : Z) :
  nest_run (None, next) (closing_events st reason) = Some (None, next).
Proof.
  unfold closing_events. destruct (current_block_type st); reflexivity.
Qed.

Lemma process_chunk_nesting (U : nat -> string) (st : stream_state) (c : chunk) :
  let r := process_chunk U st c in
  if snd r
  then exists next, nest_run (nesting_of st) (fst (fst r)) = Some (None, next)
  else nest_run (nesting_of st) (fst (fst r)) = Some (nesting_of (snd (fst r))).
Proof.
  unfold process_chunk.
  destruct (choices c) as [|ch ?]; [reflexivity|].
  set (r1 := match c_delta ch with
             | Some d => if opt_str_truthy (d_content d)
                         then handle_text st (or_empty (d_content d)) else ([], st)
             | None => ([], st)
             end).
  assert (H1 : nest_run (nesting_of st) (fst r1) = Some (nesting_of (snd r1))).
  { subst r1. destruct (c_delta ch) as [d|]; [|reflexivity].
    destruct (opt_str_truthy (d_content d)); [apply handle_text_nesting|reflexivity]. }
  destruct r1 as [evs1 st1]. simpl in H1.
  set (r2 := match c_delta ch with
             | Some d => handle_tool_calls U st1 (d_tool_calls d)
             | None => ([], st1)
             end).
  assert (H2 : nest_run (nesting_of st1) (fst r2) = Some (nesting_of (snd r2))).
  { subst r2. destruct (c_delta ch) as [d|]; [apply handle_tool_calls_nesting|reflexivity]. }
  destruct r2 as [evs2 st2]. simpl in H2.
  destruct (opt_str_truthy (c_finish_reason ch)); simpl.
  - eexists. rewrite nest_run_app, H1, nest_run_app, H2. apply closing_events_nesting.
  - rewrite nest_run_app, H1. exact H2.
Qed.

Lemma stream_loop_nesting (U : nat -> string) (cs : list chunk) (st : stream_state) :
  let o := stream_loop U st cs in
  if returned o
  then exists next, nest_run (nesting_of st) (yielded o) = Some (None, next)
  else nest_run (nesting_of st) (yielded o) = Some (nesting_of (final_state o)).
Proof.
  revert st. induction cs as [|c cs IH]; intros st; simpl; [reflexivity|].
  pose proof (process_chunk_nesting U st c) as H. simpl in H.
  destruct (process_chunk U st c) as [[evs st1] ret]. simpl in H.
  destruct ret; simpl; [exact H|].
  specialize (IH st1). simpl in IH.
  destruct (returned (stream_loop U st1 cs)).
  - destruct IH as [next IH]. exists next. rewrite nest_run_app, H. exact IH.
  - rewrite nest_run_app, H. exact IH.
Qed.

(** Every run of the transcoder is accepted by the scan. *)
Lemma stream_events_nesting (U : nat -> string) (model : json) (s : backend_stream) :
  exists next, nest_run (None, 0) (fst (stream_events U model s)) = Some (None, next).
Proof.
  unfold stream_events. cbn [fst nest_run nest_step].
  pose proof (stream_loop_nesting U (chunks s) initial_state) as H. simpl in H.
  change (nesting_of initial_state) with (@None Z, 0) in H.
  destruct (returned (stream_loop U initial_state (chunks s))).
  - destruct H as [next H]. exists next. rewrite nest_run_app, H. reflexivity.
  - eexists. rewrite nest_run_app, H.
    destruct (ending s).
    + simpl app. apply closing_events_nesting.
    + rewrite nest_run_app, closing_events_nesting. apply closing_events_closed.
Qed.

Lemma nest_run_start_indices (evs : list event) :
  forall (o o' : option Z) (a : nat) (next : Z),
    nest_run (o, Z.of_nat a) evs = Some (o', next) ->
    exists n, start_indices evs = map Z.of_nat (seq a n).
Proof.
  induction evs as [|e evs IH]; intros o o' a next H.
  - exists 0%nat. reflexivity.
  - simpl in H. destruct e; simpl in H; try (apply IH in H; exact H).
    + destruct o as [k|]; [discriminate|].
      destruct (index =? Z.of_nat a) eqn:E; [|discriminate].
      apply Z.eqb_eq in E. subst index.
      replace (Z.of_nat a + 1) with (Z.of_nat (S a)) in H by lia.
      apply IH in H. destruct H as [n H]. exists (S n). simpl. rewrite H. reflexivity.
    + destruct o as [k|]; [destruct (index =? k)|]; apply IH in H; exact H.
Qed.

Lemma of_nat_seq_sorted (n a : nat) : StronglySorted Z.lt (map Z.of_nat (seq a n)).
Proof.
  revert a. induction n as [|n IH]; intros a; simpl; constructor.
  - apply IH.
  - apply List.Forall_forall. intros x Hx.
    apply List.in_map_iff in Hx. destruct Hx as [y [<- Hy]].
    apply List.in_seq in Hy. lia.
Qed.

(** In an accepted sequence, whatever was started before a start event has
    been stopped before it. *)
Lemma nest_run_closed_before_start (pre : list event) :
  forall (ns ns' : option Z * Z) (i : Z) (b : content_block) (post : list event),
    nest_run ns (pre ++ ContentBlockStart i b :: post) = Some ns' ->
    (forall k, fst ns = Some k -> In (ContentBlockStop k) pre) /\
    (forall j b', In (ContentBlockStart j b') pre ->
       exists p1 p2, pre = (p1 ++ ContentBlockStart j b' :: p2)%list
                     /\ In (ContentBlockStop j) p2).
Proof.
  induction pre as [|e pre IH]; intros ns ns' i b post H.
  - simpl in H. split.
    + intros k Hk. rewrite Hk in H. discriminate.
    + intros j b' [].
  - simpl in H. destruct (nest_step ns e) as [ns1|] eqn:E; [|discriminate].
    destruct (IH _ _ _ _ _ H) as [A B]. split.
    + intros k Hk. destruct e; simpl in E; rewrite ?Hk in E;
        try (injection E as <-; right; apply A; exact Hk); try discriminate.
      destruct (index =? k) eqn:Ek.
      * apply Z.eqb_eq in Ek. subst index. left. reflexivity.
      * injection E as <-. right. apply A. exact Hk.
    + intros j b' [Hj|Hj].
      * subst e. simpl in E. destruct (fst ns); [discriminate|].
        destruct (j =? snd ns); [|discriminate]. injection E as <-.
        exists [], pre. split; [reflexivity|]. apply A. reflexivity.
      * destruct (B _ _ Hj) as [p1 [p2 [-> Hp2]]].
        exists (e :: p1), p2. split; [reflexivity|exact Hp2].
Qed.

(** C3: for the chunks text Hi, text there, finish stop, the transcoder emits
    exactly message_start, ping, content_block_start (index 0, text), the two
    text deltas, content_block_stop (index 0), message_delta (end_turn, 2
    output tokens) and message_stop; whatever follows the finish chunk in the
    backend stream, and however that stream would end, is left unconsumed. *)
Theorem C3_hi_there_event_sequence (U : nat -> string) (model : json)
    (rest : list chunk) (e : stream_end) :
  stream_events U model (mk_backend_stream (hi_there_chunks ++ rest) e) =
    ([MessageStart ("msg_" ++ uuid_prefix U 0 24) model;
      Ping;
      ContentBlockStart 0 TextContent;
      ContentBlockDelta 0 (TextDelta "Hi");
      ContentBlockDelta 0 (TextDelta " there");
      ContentBlockStop 0;
      MessageDelta "end_turn" 2;
      MessageStop],
     rest).
Proof. reflexivity. Qed.

(** C4: the indices of the content_block_start events of any run are 0, 1,
    2, ... in this order (so they start at 0, increase strictly and are never
    reused), and every block started before a content_block_start event has
    had its content_block_stop emitted before that event.  For two tool calls
    at backend indices 0 and 1, each with a name and argument fragments,
    followed by finish tool_calls, two tool_use blocks open at indices 0 and
    1, the first closed before the second opens, and the stop reason is
    tool_use. *)
Theorem C4_block_indices_increase_and_blocks_nest (U : nat -> string) (model : json)
    (s : backend_stream) :
  let evs := fst (stream_events U model s) in
  (exists n, start_indices evs = map Z.of_nat (seq 0 n)) /\
  StronglySorted Z.lt (start_indices evs) /\
  (forall pre i b post,
     evs = (pre ++ ContentBlockStart i b :: post)%list ->
     forall j b', In (ContentBlockStart j b') pre ->
       exists p1 p2, pre = (p1 ++ ContentBlockStart j b' :: p2)%list
                     /\ In (ContentBlockStop j) p2) /\
  fst (stream_events U model (mk_backend_stream two_tool_calls_chunks Exhausted)) =
    [MessageStart ("msg_" ++ uuid_prefix U 0 24) model;
     Ping;
     ContentBlockStart 0 (ToolUseContent "call_a" "get_weather");
     ContentBlockDelta 0 (InputJsonDelta "{");
     ContentBlockDelta 0 (InputJsonDelta "}");
     ContentBlockStop 0;
     ContentBlockStart 1 (ToolUseContent "call_b" "get_time");
     ContentBlockDelta 1 (InputJsonDelta "{}");
     ContentBlockStop 1;
     MessageDelta "tool_use" 0;
     MessageStop].
Proof.
  intros evs.
  destruct (stream_events_nesting U model s) as [next H]. fold evs in H.
  assert (Hn : exists n, start_indices evs = map Z.of_nat (seq 0 n)).
  { exact (nest_run_start_indices evs None None 0 next H). }
  split; [exact Hn|]. split.
  - destruct Hn as [n ->]. apply of_nat_seq_sorted.
  - split; [|reflexivity].
    intros pre i b post Hsplit. rewrite Hsplit in H.
    exact (proj2 (nest_run_closed_before_start pre _ _ _ _ _ H)).
Qed.

(** ** The streaming transcoder: a fault of the backend stream *)

Lemma filter_block_events (p : event -> bool) (evs : list event) :
  (forall e, is_block_event e = true -> p e = false) ->
  forallb is_block_event evs = true ->
  List.filter p evs = [].
Proof.
  intros Hp. induction evs as [|e evs IH]; simpl; intros H; [reflexivity|].
  apply andb_true_iff in H. destruct H as [He Hevs].
  rewrite (Hp e He). apply IH. exact Hevs.
Qed.

Lemma close_previous_block_events (st : stream_state) :
  forallb is_block_event (fst (close_previous_block st)) = true.
Proof. unfold close_previous_block. destruct (current_block_type st); reflexivity. Qed.

Lemma handle_text_events (st : stream_state) (text : string) :
  forallb is_block_event (fst (handle_text st text)) = true.
Proof.
  unfold handle_text.
  pose proof (close_previous_block_events st) as H.
  destruct (close_previous_block st) as [closed s1]. simpl in H.
  destruct (current_block_type st) as [[|]|]; simpl;
    rewrite ?List.forallb_app, ?H; reflexivity.
Qed.

Lemma handle_tool_call_events (U : nat -> string) (st : stream_state) (tc : tool_call_delta) :
  forallb is_block_event (fst (handle_tool_call U st tc)) = true.
Proof.
  unfold handle_tool_call.
  pose proof (close_previous_block_events st) as H.
  destruct (close_previous_block st) as [closed s1]. simpl in H.
  destruct (tool_call_accumulators st !! _) as [acc|];
    destruct (opt_str_truthy (tc_id tc));
    (destruct (tc_function tc) as [fn|]; [destruct (str_truthy _)|]); simpl;
    rewrite ?List.forallb_app, ?H; reflexivity.
Qed.

Lemma handle_tool_calls_events (U : nat -> string) (tcs : list tool_call_delta)
    (st : stream_state) :
  forallb is_block_event (fst (handle_tool_calls U st tcs)) = true.
Proof.
  revert st. induction tcs as [|tc tcs IH]; intros st; simpl; [reflexivity|].
  pose proof (handle_tool_call_events U st tc) as H1.
  destruct (handle_tool_call U st tc) as [evs1 st1]. simpl in H1.
  pose proof (IH st1) as H2.
  destruct (handle_tool_calls U st1 tcs) as [evs2 st2]. simpl in *.
  rewrite List.forallb_app, H1, H2. reflexivity.
Qed.

(** A chunk makes the function return exactly when it carries a finish
    reason; short of that it yields block events only. *)
Lemma process_chunk_unfinished (U : nat -> string) (st : stream_state) (c : chunk) :
  chunk_finishes c = false ->
  snd (process_chunk U st c) = false /\
  forallb is_block_event (fst (fst (process_chunk U st c))) = true.
Proof.
  unfold chunk_finishes, process_chunk.
  destruct (choices c) as [|ch ?]; [split; reflexivity|]. intros ->.
  destruct (c_delta ch) as [d|]; [|split; reflexivity].
  assert (H1 : forallb is_block_event
                 (fst (if opt_str_truthy (d_content d)
                       then handle_text st (or_empty (d_content d)) else ([], st))) = true).
  { destruct (opt_str_truthy (d_content d)); [apply handle_text_events|reflexivity]. }
  destruct (if opt_str_truthy (d_content d) then _ else _) as [evs1 st1]. simpl in H1.
  pose proof (handle_tool_calls_events U (d_tool_calls d) st1) as H2.
  destruct (handle_tool_calls U st1 (d_tool_calls d)) as [evs2 st2]. simpl in *.
  rewrite List.forallb_app, H1, H2. split; reflexivity.
Qed.

Lemma stream_loop_unfinished (U : nat -> string) (cs : list chunk) (st : stream_state) :
  forallb (fun c => negb (chunk_finishes c)) cs = true ->
  returned (stream_loop U st cs) = false /\
  forallb is_block_event (yielded (stream_loop U st cs)) = true.
Proof.
  revert st. induction cs as [|c cs IH]; intros st H; simpl; [split; reflexivity|].
  simpl in H. apply andb_true_iff in H. destruct H as [Hc Hcs].
  apply negb_true_iff in Hc.
  destruct (process_chunk_unfinished U st c Hc) as [Hret Hevs].
  destruct (process_chunk U st c) as [[evs st1] ret]. simpl in Hret, Hevs. subst ret.
  destruct (IH st1 Hcs) as [IH1 IH2]. simpl. split; [exact IH1|].
  rewrite List.forallb_app, Hevs, IH2. reflexivity.
Qed.

(** C1 (how the code runs a fault): when no chunk carries a finish reason and
    the iteration over the backend stream then raises, the events end with
    the closing events twice over: the stop of the open block, message_delta
    with end_turn and message_stop come from the exception handler and then
    once more from the statements after it.  There are two message_delta and
    two message_stop events, where one of each is expected. *)
Theorem C1_fault_closes_the_message_twice (U : nat -> string) (model : json)
    (cs : list chunk) :
  forallb (fun c => negb (chunk_finishes c)) cs = true ->
  let evs := fst (stream_events U model (mk_backend_stream cs Fault)) in
  (exists pre stops n,
     evs = (pre ++ (stops ++ [MessageDelta "end_turn" n; MessageStop])
                ++ (stops ++ [MessageDelta "end_turn" n; MessageStop]))%list) /\
  List.length (List.filter is_message_delta evs) = 2%nat /\
  List.length (List.filter is_message_stop evs) = 2%nat.
Proof.
  intros H. destruct (stream_loop_unfinished U cs initial_state H) as [Hret Hevs].
  unfold stream_events. cbn [chunks ending fst]. rewrite Hret.
  set (o := stream_loop U initial_state cs) in *.
  split.
  - exists (MessageStart ("msg_" ++ uuid_prefix U 0 24) model :: Ping :: yielded o).
    eexists. eexists. unfold closing_events. reflexivity.
  - cbn [List.filter is_message_delta is_message_stop].
    rewrite !List.filter_app.
    rewrite (filter_block_events is_message_delta (yielded o)), (filter_block_events is_message_stop (yielded o));
      try exact Hevs; try (intros [] ?; (reflexivity || discriminate)).
    unfold closing_events. destruct (current_block_type (final_state o)); split; reflexivity.
Qed.

(** The run the statement above is applied to: one text chunk, then a fault. *)
Lemma C1_fault_after_text_witness :
  forallb (fun c => negb (chunk_finishes c)) [text_chunk "Hi"] = true /\
  let evs := fst (stream_events sample_uuid (JStr "m")
                    (mk_backend_stream [text_chunk "Hi"] Fault)) in
  (exists pre stops n,
     evs = (pre ++ (stops ++ [MessageDelta "end_turn" n; MessageStop])
                ++ (stops ++ [MessageDelta "end_turn" n; MessageStop]))%list) /\
  List.length (List.filter is_message_delta evs) = 2%nat /\
  List.length (List.filter is_message_stop evs) = 2%nat.
Proof.
  split; [reflexivity|].
  apply (C1_fault_closes_the_message_twice sample_uuid (JStr "m") [text_chunk "Hi"]).
  reflexivity.
Defined.

(** The events of that run, in full. *)
Example fault_after_text_events (U : nat -> string) (model : json) :
  fst (stream_events U model (mk_backend_stream [text_chunk "Hi"] Fault)) =
    [MessageStart ("msg_" ++ uuid_prefix U 0 24) model;
     Ping;
     ContentBlockStart 0 TextContent;
     ContentBlockDelta 0 (TextDelta "Hi");
     ContentBlockStop 0;
     MessageDelta "end_turn" 1;
     MessageStop;
     ContentBlockStop 0;
     MessageDelta "end_turn" 1;
     MessageStop].
Proof. reflexivity. Qed.

(** ** The streaming transcoder: a fragment for a closed block *)

(** C2 (how the code runs a late fragment): a tool call opens block 0, a text
    chunk closes it and opens block 1, and a further argument fragment of the
    same tool call is then emitted as a content_block_delta tagged with index
    0, after the content_block_stop of block 0. *)
Theorem C2_delta_after_stop_of_its_block (U : nat -> string) (model : json) :
  let evs := fst (stream_events U model
                    (mk_backend_stream late_fragment_chunks Exhausted)) in
  evs =
    [MessageStart ("msg_" ++ uuid_prefix U 0 24) model;
     Ping;
     ContentBlockStart 0 (ToolUseContent "call_a" "get_weather");
     ContentBlockStop 0;
     ContentBlockStart 1 TextContent;
     ContentBlockDelta 1 (TextDelta "x");
     ContentBlockDelta 0 (InputJsonDelta "{}");
     ContentBlockStop 1;
     MessageDelta "end_turn" 1;
     MessageStop] /\
  exists p1 p2 p3,
    evs = (p1 ++ ContentBlockStop 0 :: p2
              ++ ContentBlockDelta 0 (InputJsonDelta "{}") :: p3)%list.
Proof.
  split; [reflexivity|].
  exists [MessageStart ("msg_" ++ uuid_prefix U 0 24) model; Ping;
          ContentBlockStart 0 (ToolUseContent "call_a" "get_weather")].
  exists [ContentBlockStart 1 TextContent; ContentBlockDelta 1 (TextDelta "x")].
  eexists. reflexivity.
Qed.

(** The same happens between two tool calls: the arguments of the first,
    arriving after the second has opened, are tagged with the index of the
    block that was stopped. *)
Example interleaved_tool_calls_events (U : nat -> string) (model : json) :
  fst (stream_events U model (mk_backend_stream interleaved_tool_calls_chunks Exhausted)) =
    [MessageStart ("msg_" ++ uuid_prefix U 0 24) model;
     Ping;
     ContentBlockStart 0 (ToolUseContent "call_a" "get_weather");
     ContentBlockStop 0;
     ContentBlockStart 1 (ToolUseContent "call_b" "get_time");
     ContentBlockDelta 0 (InputJsonDelta "{}");
     ContentBlockStop 1;
     MessageDelta "tool_use" 0;
     MessageStop].
Proof. reflexivity. Qed.

(** ** Message translation: messages with tool results *)

Lemma mapM_nonempty {A B : Type} (f : A -> result B) (l : list A) (l' : list B) :
  mapM f l = Ok l' -> is_nonempty l' = is_nonempty l.
Proof.
  destruct l as [|a l]; simpl.
  - intros [= <-]. reflexivity.
  - destruct (f a); simpl; [|discriminate].
    destruct (mapM f l); simpl; [|discriminate]. intros [= <-]. reflexivity.
Qed.

Lemma is_nonempty_app {A : Type} (l1 l2 : list A) :
  is_nonempty (l1 ++ l2) = is_nonempty l1 || is_nonempty l2.
Proof. destruct l1; reflexivity. Qed.

(** The loop over the blocks computes the three lists that filtering the
    blocks by type gives, and raises when flattening a result raises. *)
Lemma block_loop_lists (U : nat -> string) (blocks : list json) :
  forall acc : block_lists,
    match tool_result_messages blocks with
    | Raise e => block_loop U acc blocks = Raise e
    | Ok messages =>
        exists calls k,
          block_loop U acc blocks =
            Ok (mk_block_lists (text_parts acc ++ text_parts_of blocks)
                  (tool_calls acc ++ calls) (tool_results acc ++ messages) k)
          /\ is_nonempty calls = existsb (is_block_of_type "tool_use") blocks
    end.
Proof.
  unfold tool_result_messages.
  induction blocks as [|block blocks IH]; intros acc.
  - simpl. exists [], (uuids_drawn acc). rewrite !app_nil_r. destruct acc. split; reflexivity.
  - assert (Hskip : is_block_of_type "text" block = false ->
                    is_block_of_type "tool_use" block = false ->
                    is_block_of_type "tool_result" block = false ->
                    block_step U acc block = Ok acc ->
                    match mapM tool_result_message
                            (List.filter (is_block_of_type "tool_result") (block :: blocks)) with
                    | Raise e => block_loop U acc (block :: blocks) = Raise e
                    | Ok messages =>
                        exists calls k,
                          block_loop U acc (block :: blocks) =
                            Ok (mk_block_lists (text_parts acc ++ text_parts_of (block :: blocks))
                                  (tool_calls acc ++ calls) (tool_results acc ++ messages) k)
                          /\ is_nonempty calls
                             = existsb (is_block_of_type "tool_use") (block :: blocks)
                    end).
    { intros H1 H2 H3 Hstep. unfold text_parts_of. simpl. rewrite H1, H2, H3, Hstep. simpl.
      apply IH. }
    destruct block as [| | | |items|b]; try (apply Hskip; reflexivity).
    destruct (dict_get_or "type" JNull b) as [| | |t| |] eqn:Et;
      try (apply Hskip; simpl; rewrite ?Et; reflexivity).
    destruct (String.eqb t "text") eqn:E1.
    { apply String.eqb_eq in E1. subst t.
      unfold text_parts_of. simpl. rewrite Et. simpl.
      specialize (IH (mk_block_lists (text_parts acc ++ [dict_get_or "text" (JStr "") b])
                        (tool_calls acc) (tool_results acc) (uuids_drawn acc))).
      destruct (mapM tool_result_message _) as [messages|e]; [|exact IH].
      destruct IH as [calls [k [IH1 IH2]]]. exists calls, k. simpl in IH1.
      rewrite <- app_assoc in IH1. split; [exact IH1|exact IH2]. }
    destruct (String.eqb t "tool_use") eqn:E2.
    { apply String.eqb_eq in E2. subst t.
      unfold text_parts_of. simpl. rewrite Et. simpl.
      specialize (IH (mk_block_lists (text_parts acc)
                        (tool_calls acc ++ [tool_call_of U (uuids_drawn acc) b])
                        (tool_results acc) (S (uuids_drawn acc)))).
      destruct (mapM tool_result_message _) as [messages|e]; [|exact IH].
      destruct IH as [calls [k [IH1 IH2]]].
      exists (tool_call_of U (uuids_drawn acc) b :: calls), k. simpl in IH1.
      rewrite <- app_assoc in IH1. split; [exact IH1|reflexivity]. }
    destruct (String.eqb t "tool_result") eqn:E3.
    { apply String.eqb_eq in E3. subst t.
      unfold text_parts_of. simpl. rewrite Et. simpl.
      unfold tool_result_message at 1. simpl.
      destruct (flatten_result_content (dict_get_or "content" (JStr "") b)) as [c|e];
        simpl; [|reflexivity].
      specialize (IH (mk_block_lists (text_parts acc) (tool_calls acc)
                        (tool_results acc ++ [tool_message_of b c]) (uuids_drawn acc))).
      destruct (mapM tool_result_message _) as [messages|e]; simpl; [|exact IH].
      destruct IH as [calls [k [IH1 IH2]]]. exists calls, k. simpl in IH1.
      rewrite <- app_assoc in IH1. split; [exact IH1|exact IH2]. }
    apply Hskip; simpl; rewrite ?Et; simpl; rewrite ?E1, ?E2, ?E3; reflexivity.
Qed.

Lemma existsb_filter_nonempty {A : Type} (p : A -> bool) (l : list A) :
  is_nonempty (List.filter p l) = existsb p l.
Proof.
  induction l as [|a l IH]; simpl; [reflexivity|].
  destruct (p a); simpl; [reflexivity|exact IH].
Qed.

(** C5 (as amended): for a message whose content is a block list with at
    least one tool_result block, and which is not an assistant message with
    tool_use blocks, the translator emits the role-preserving message with
    the newline-joined text parts first, exactly when the message has a text
    block (even one whose text is empty), followed by one tool-role message
    per tool_result block in order, each with the referenced tool_use id as
    tool_call_id and the flattened text of the result content.  One
    tool_result referencing T1 and no text gives exactly the one tool-role
    message; a text block and a tool_result give exactly two messages, text
    first. *)
Theorem C5_tool_result_messages (U : nat -> string) (k : nat)
    (m : list (string * json)) (blocks : list json) :
  dict_get_or "content" JNull m = JArr blocks ->
  existsb (is_block_of_type "tool_result") blocks = true ->
  json_eq_str (dict_get_or "role" (JStr "user") m) "assistant"
    && existsb (is_block_of_type "tool_use") blocks = false ->
  let role := dict_get_or "role" (JStr "user") m in
  (r <- translate_message U k (JObj m) ;; Ok (fst r)) = tool_result_translation role blocks /\
  _translate_messages_to_openai U [JObj m] = tool_result_translation role blocks /\
  (forall id content,
     _translate_messages_to_openai U [JObj (user_message [tool_result_block id content])] =
       Ok [JObj [("role", JStr "tool"); ("tool_call_id", JStr id); ("content", JStr content)]]) /\
  (forall text id content,
     _translate_messages_to_openai U
       [JObj (user_message [text_block text; tool_result_block id content])] =
       Ok [JObj [("role", JStr "user"); ("content", JStr text)];
           JObj [("role", JStr "tool"); ("tool_call_id", JStr id); ("content", JStr content)]]).
Proof.
  intros Hcontent Hresult Hbranch role.
  assert (Hone : forall k0,
            (r <- translate_message U k0 (JObj m) ;; Ok (fst r))
            = tool_result_translation role blocks).
  { intros k0. unfold translate_message, tool_result_translation. simpl.
    rewrite Hcontent.
    pose proof (block_loop_lists U blocks (mk_block_lists [] [] [] k0)) as H.
    destruct (tool_result_messages blocks) as [messages|e] eqn:Em;
      [|rewrite H; reflexivity].
    destruct H as [calls [k1 [-> Hcalls]]]. simpl.
    unfold build_messages. simpl. fold role. fold role in Hbranch.
    rewrite Hcalls, Hbranch.
    unfold tool_result_messages in Em.
    rewrite (mapM_nonempty _ _ _ Em), existsb_filter_nonempty, Hresult.
    destruct (is_nonempty (text_parts_of blocks)); simpl; [|reflexivity].
    destruct (py_join newline (text_parts_of blocks)); reflexivity. }
  split; [apply Hone|]. split; [|split; reflexivity].
  unfold _translate_messages_to_openai. simpl.
  rewrite <- (Hone 0%nat).
  destruct (translate_message U 0 (JObj m)) as [[out k1]|e]; simpl; [|reflexivity].
  rewrite app_nil_r. reflexivity.
Qed.

(** The statement above at a user message with an empty text block and one
    tool result. *)
Lemma C5_tool_result_messages_witness :
  let m := user_message [text_block ""; tool_result_block "T1" "ok"] in
  let blocks := [text_block ""; tool_result_block "T1" "ok"] in
  dict_get_or "content" JNull m = JArr blocks /\
  existsb (is_block_of_type "tool_result") blocks = true /\
  json_eq_str (dict_get_or "role" (JStr "user") m) "assistant"
    && existsb (is_block_of_type "tool_use") blocks = false /\
  _translate_messages_to_openai sample_uuid [JObj m] =
    tool_result_translation (JStr "user") blocks.
Proof.
  intros m blocks.
  split; [reflexivity|]. split; [reflexivity|]. split; [reflexivity|].
  apply (C5_tool_result_messages sample_uuid 0 m blocks); reflexivity.
Defined.

(** C5 as stated fails: an empty text block makes the joined text empty, yet
    the text message is emitted, so the tool-role message is not the only
    one. *)
Lemma C5_empty_text_counterexample :
  let blocks := [text_block ""; tool_result_block "T1" "ok"] in
  _translate_messages_to_openai sample_uuid [JObj (user_message blocks)] =
    Ok [JObj [("role", JStr "user"); ("content", JStr "")];
        JObj [("role", JStr "tool"); ("tool_call_id", JStr "T1"); ("content", JStr "ok")]] /\
  tool_result_translation_nonempty_text (JStr "user") blocks =
    Ok [JObj [("role", JStr "tool"); ("tool_call_id", JStr "T1"); ("content", JStr "ok")]] /\
  _translate_messages_to_openai sample_uuid [JObj (user_message blocks)] <>
    tool_result_translation_nonempty_text (JStr "user") blocks.
Proof.
  intros blocks. split; [reflexivity|]. split; [reflexivity|]. discriminate.
Qed.

(** ** The request builder *)

Lemma chars_of_nonempty (s : string) :
  is_nonempty (chars_of s) = negb (String.eqb s "").
Proof. destruct s; reflexivity. Qed.

(** When the tool definitions translate, the translated list is non-empty
    exactly when the inbound value is truthy. *)
Lemma translate_tools_present (tools : json) (oai_tools : option (list json)) :
  _translate_tools_to_openai tools = Ok oai_tools ->
  tools_present oai_tools = truthy tools.
Proof.
  unfold _translate_tools_to_openai.
  destruct (truthy tools) eqn:Et; simpl.
  - intros H. bind_inv H. injection H as <-. simpl.
    rewrite (mapM_nonempty _ _ _ E0).
    destruct tools as [| | |s|l|d]; simpl in E; try discriminate;
      injection E as <-; simpl in Et.
    + rewrite chars_of_nonempty. exact Et.
    + destruct l; [discriminate|reflexivity].
    + destruct d; [discriminate|reflexivity].
  - intros [= <-]. reflexivity.
Qed.

(** The builder returns whenever its converters do. *)
Lemma build_call_kwargs_returns (U : nat -> string) (body : request_body) (model : json)
    (api_base auth_token : string) (stream : json)
    (system_text : string) (messages translated : list json)
    (oai_tools : option (list json)) :
  (if truthy (dict_get_or "system" JNull (fields body))
   then _translate_system_prompt (dict_get_or "system" JNull (fields body))
   else Ok "") = Ok system_text ->
  py_iter (dict_get_or "messages" (JArr []) (fields body)) = Ok messages ->
  _translate_messages_to_openai U messages = Ok translated ->
  _translate_tools_to_openai (dict_get_or "tools" JNull (fields body)) = Ok oai_tools ->
  exists kw, build_call_kwargs U body model api_base auth_token stream = Ok kw.
Proof.
  intros Hsys Hiter Hmsgs Htools. unfold build_call_kwargs.
  rewrite Hsys. simpl. rewrite Hiter. simpl. rewrite Hmsgs. simpl. rewrite Htools. simpl.
  eexists. reflexivity.
Qed.

(** What the builder returns, field by field. *)
Lemma build_call_kwargs_fields (U : nat -> string) (body : request_body) (model : json)
    (api_base auth_token : string) (stream : json) (kw : call_kwargs) :
  build_call_kwargs U body model api_base auth_token stream = Ok kw ->
  exists system_text translated oai_tools,
    (if truthy (dict_get_or "system" JNull (fields body))
     then _translate_system_prompt (dict_get_or "system" JNull (fields body))
     else Ok "") = Ok system_text /\
    _translate_tools_to_openai (dict_get_or "tools" JNull (fields body)) = Ok oai_tools /\
    kw_messages kw =
      role_content_message (JStr "system") (JStr (_COMPAT_PREAMBLE ++ system_text))
        :: translated /\
    kw_temperature kw =
      (if tools_present oai_tools && PrimFloat.ltb 0.6%float (inbound_temperature body)
       then 0.6%float else inbound_temperature body) /\
    kw_tools kw = (if tools_present oai_tools then oai_tools else None).
Proof.
  unfold build_call_kwargs. intros H. bind_inv H. injection H as <-.
  exists a, a1, a2. simpl. repeat split; assumption || reflexivity.
Qed.

(** C6: the first backend message is the system message, and its content is
    the fixed preamble followed by the translated system text of the
    request: the empty text when the request has no system field, the
    converter's result for a string or a block list (and for any other value
    that is truthy). *)
Theorem C6_preamble_precedes_system_text (U : nat -> string) (body : request_body)
    (model : json) (api_base auth_token : string) (stream : json) (kw : call_kwargs) :
  build_call_kwargs U body model api_base auth_token stream = Ok kw ->
  system_is_prompt (dict_get_or "system" JNull (fields body))
    || truthy (dict_get_or "system" JNull (fields body)) = true ->
  exists text rest,
    translated_system_text (dict_get_or "system" JNull (fields body)) = Ok text /\
    kw_messages kw =
      role_content_message (JStr "system") (JStr (_COMPAT_PREAMBLE ++ text)) :: rest.
Proof.
  intros H Hshape.
  destruct (build_call_kwargs_fields _ _ _ _ _ _ _ H)
    as [text [translated [oai_tools [Hsys [_ [Hmsgs _]]]]]].
  exists text, translated. split; [|exact Hmsgs].
  destruct (dict_get_or "system" JNull (fields body)) as [|b|n|s|l|d];
    simpl in Hshape; simpl in Hsys; try exact Hsys.
  - subst b. exact Hsys.
  - rewrite Hshape in Hsys. exact Hsys.
  - destruct (String.eqb s "") eqn:Es; simpl in Hsys; [|exact Hsys].
    apply String.eqb_eq in Es. subst s. exact Hsys.
  - destruct l; [exact Hsys|exact Hsys].
  - destruct d; [discriminate Hshape|exact Hsys].
Qed.

(** The statement above at a request whose system prompt is a list of two
    text blocks. *)
Lemma C6_preamble_precedes_system_text_witness :
  exists kw,
    build_call_kwargs sample_uuid sample_system_request (JStr "m") "http://backend" "token"
      (JBool false) = Ok kw /\
    system_is_prompt (dict_get_or "system" JNull (fields sample_system_request))
      || truthy (dict_get_or "system" JNull (fields sample_system_request)) = true /\
    exists text rest,
      translated_system_text (dict_get_or "system" JNull (fields sample_system_request))
        = Ok text /\
      kw_messages kw =
        role_content_message (JStr "system") (JStr (_COMPAT_PREAMBLE ++ text)) :: rest.
Proof.
  eexists. split; [reflexivity|]. split; [reflexivity|].
  apply (C6_preamble_precedes_system_text sample_uuid sample_system_request (JStr "m")
           "http://backend" "token" (JBool false)); reflexivity.
Defined.

(** A system field that is neither absent, a string nor a list, and that
    is falsy, is dropped and not rendered: the number 0 leaves the preamble
    alone. *)
Example falsy_system_is_dropped (U : nat -> string) (model : json)
    (api_base auth_token : string) (stream : json) :
  _translate_system_prompt (JNum 0) = Ok "0" /\
  (kw <- build_call_kwargs U (mk_request_body [("system", JNum 0)] None None) model
           api_base auth_token stream ;; Ok (kw_messages kw)) =
    Ok [role_content_message (JStr "system") (JStr (_COMPAT_PREAMBLE ++ ""))].
Proof. split; reflexivity. Qed.

(** C7: the temperature sent to the backend is the inbound temperature,
    unless tools are sent and the inbound temperature is above 0.6, in which
    case it is 0.6; tools are sent exactly when the request carries a
    non-empty tool list.  With a tool and 0.9 the backend gets 0.6, with a
    tool and 0.4 it gets 0.4, and with no tools and 0.9 it gets 0.9. *)
Theorem C7_temperature_clamped_with_tools (U : nat -> string) (body : request_body)
    (model : json) (api_base auth_token : string) (stream : json) (kw : call_kwargs) :
  build_call_kwargs U body model api_base auth_token stream = Ok kw ->
  let tools := dict_get_or "tools" JNull (fields body) in
  (kw_tools kw <> None <-> truthy tools = true) /\
  kw_temperature kw =
    (if truthy tools && PrimFloat.ltb 0.6%float (inbound_temperature body)
     then 0.6%float else inbound_temperature body) /\
  (kw' <- build_call_kwargs U (sample_request [sample_tool] 0.9%float) model api_base
            auth_token stream ;; Ok (kw_temperature kw')) = Ok 0.6%float /\
  (kw' <- build_call_kwargs U (sample_request [sample_tool] 0.4%float) model api_base
            auth_token stream ;; Ok (kw_temperature kw')) = Ok 0.4%float /\
  (kw' <- build_call_kwargs U (sample_request [] 0.9%float) model api_base
            auth_token stream ;; Ok (kw_temperature kw')) = Ok 0.9%float.
Proof.
  intros H tools.
  destruct (build_call_kwargs_fields _ _ _ _ _ _ _ H)
    as [text [translated [oai_tools [_ [Htools [_ [Htemp Hkw]]]]]]].
  pose proof (translate_tools_present _ _ Htools) as Hpresent. fold tools in Hpresent.
  rewrite Hpresent in Htemp, Hkw.
  split; [|split; [exact Htemp|repeat split; reflexivity]].
  rewrite Hkw. destruct (truthy tools) eqn:Et.
  - split; [intros _; reflexivity|]. intros _ Hnone. subst oai_tools.
    rewrite Hnone in Hpresent. discriminate Hpresent.
  - split; [intros Hne; exfalso; apply Hne; reflexivity|discriminate].
Qed.

(** The statement above at a request with one tool and temperature 0.9. *)
Lemma C7_temperature_clamped_with_tools_witness :
  exists kw,
    build_call_kwargs sample_uuid (sample_request [sample_tool] 0.9%float) (JStr "m")
      "http://backend" "token" (JBool false) = Ok kw /\
    kw_tools kw <> None /\
    kw_temperature kw = 0.6%float.
Proof.
  eexists. split; [reflexivity|].
  pose proof (C7_temperature_clamped_with_tools sample_uuid
                (sample_request [sample_tool] 0.9%float) (JStr "m") "http://backend" "token"
                (JBool false) _ eq_refl) as [Htools [Htemp _]].
  split; [apply Htools; reflexivity|exact Htemp].
Defined.

(** ** The token estimate *)

Lemma add_chars_sum (chars : json -> result Z) (l : list json) :
  forall total_chars,
    add_chars chars l total_chars = (s <- sum_chars chars l ;; Ok (total_chars + s)).
Proof.
  induction l as [|x l IH]; intros total_chars; simpl.
  - f_equal. lia.
  - destruct (chars x) as [n|e]; simpl; [|reflexivity].
    rewrite IH. destruct (sum_chars chars l) as [m|e]; simpl; [|reflexivity].
    f_equal. lia.
Qed.

(** When every element costs what [g] counts plus [extra], the sums differ
    by the sum of the extras. *)
Lemma sum_chars_extra (f g : json -> result Z) (extra : json -> Z) (l : list json) :
  (forall x, f x = (n <- g x ;; Ok (n + extra x))) ->
  sum_chars f l = (t <- sum_chars g l ;; Ok (t + sum_Z (map extra l))).
Proof.
  intros Hf. induction l as [|x l IH]; simpl; [reflexivity|].
  rewrite Hf, IH. destruct (g x) as [n|e]; simpl; [|reflexivity].
  destruct (sum_chars g l) as [m|e]; simpl; [|reflexivity].
  f_equal. lia.
Qed.

Lemma sum_Z_lacks_input (blocks : list json) :
  sum_Z (map (fun b => if lacks_input b then 2 else 0) blocks) =
    2 * Z.of_nat (List.length (List.filter lacks_input blocks)).
Proof.
  induction blocks as [|b blocks IH]; [reflexivity|].
  cbn [map sum_Z List.filter]. rewrite IH.
  destruct (lacks_input b); cbn [List.length]; lia.
Qed.

Lemma sum_Z_double {A : Type} (f : A -> Z) (l : list A) :
  sum_Z (map (fun x => 2 * f x) l) = 2 * sum_Z (map f l).
Proof. induction l as [|x l IH]; [reflexivity|]. cbn [map sum_Z]. lia. Qed.

(** A block of a message costs its counted characters, and two more when
    it has no input field. *)
Lemma content_block_chars_counted (block : json) :
  content_block_chars block =
    (n <- counted_block_chars block ;; Ok (n + (if lacks_input block then 2 else 0))).
Proof.
  destruct block as [| | | | |b]; try reflexivity.
  unfold content_block_chars, counted_block_chars, system_block_chars, block_input_chars,
    lacks_input, dict_get_or at 2. cbn [block_fields].
  destruct (py_len (dict_get_or "text" (JStr "") b)) as [n|e]; simpl; [|reflexivity].
  destruct (dict_get "input" b) as [v|]; f_equal; unfold str_len; simpl; lia.
Qed.

Lemma message_chars_counted (msg : json) :
  message_chars msg =
    (n <- counted_message_chars msg ;; Ok (n + 2 * message_inputless msg)).
Proof.
  destruct msg as [| | | | |m]; try reflexivity.
  unfold message_chars, counted_message_chars, message_inputless. cbn [as_dict bind block_fields].
  destruct (dict_get_or "content" (JStr "") m) as [| | |s|blocks|d];
    try (simpl; f_equal; unfold str_len; lia).
  rewrite add_chars_sum.
  rewrite (sum_chars_extra content_block_chars counted_block_chars
             (fun b => if lacks_input b then 2 else 0) blocks content_block_chars_counted).
  rewrite sum_Z_lacks_input.
  destruct (sum_chars counted_block_chars blocks); reflexivity.
Qed.

(** The estimate, as a function of the counted characters and of the number
    of blocks without an input field. *)
Lemma count_tokens_estimate_counted (body : list (string * json)) :
  _count_tokens_estimate body =
    (t <- counted_total_chars body ;;
     Ok (Z.max 1 ((t + 2 * inputless_blocks body) / 4))).
Proof.
  unfold _count_tokens_estimate, counted_total_chars, inputless_blocks.
  assert (Hsys : match dict_get_or "system" (JStr "") body with
                 | JStr s => Ok (Z.of_nat (String.length s))
                 | JArr blocks => add_chars system_block_chars blocks 0
                 | _ => Ok 0
                 end = counted_system_chars (dict_get_or "system" (JStr "") body)).
  { destruct (dict_get_or "system" (JStr "") body); try reflexivity.
    simpl. rewrite add_chars_sum. destruct (sum_chars system_block_chars items); reflexivity. }
  rewrite Hsys.
  destruct (counted_system_chars _) as [s|e]; simpl; [|reflexivity].
  destruct (py_iter _) as [msgs|e]; simpl; [|reflexivity].
  rewrite add_chars_sum.
  rewrite (sum_chars_extra message_chars counted_message_chars
             (fun m => 2 * message_inputless m) msgs message_chars_counted).
  rewrite (sum_Z_double message_inputless msgs).
  destruct (sum_chars counted_message_chars msgs) as [m|e]; simpl; [|reflexivity].
  apply (f_equal (fun t => Ok (Z.max 1 (t / 4)))). lia.
Qed.

Lemma message_inputless_nonneg (msg : json) : 0 <= message_inputless msg.
Proof.
  unfold message_inputless.
  destruct (dict_get_or "content" (JStr "") (block_fields msg)); lia.
Qed.

Lemma inputless_blocks_nonneg (body : list (string * json)) : 0 <= inputless_blocks body.
Proof.
  unfold inputless_blocks. destruct (py_iter _) as [msgs|e]; [|lia].
  induction msgs as [|msg msgs IH]; simpl; [lia|].
  pose proof (message_inputless_nonneg msg). lia.
Qed.

(** C8 (as amended): the estimate is the floor of a character total divided
    by 4, at least 1.  The total counts a string system prompt by its length
    and a block-list system prompt by the text lengths of its blocks, with no
    separators; it counts every message by the length of its string content
    or, for a block list, by the text length of every block plus the length
    of the JSON serialization of the input field of every block that has
    one.  What a block without an input field adds besides its text is left
    open between 0 and 2 characters.  Among bodies whose blocks all have an
    input field the estimate is monotone in the total, and a body with only a
    system string of length 4 is estimated at 1. *)
Theorem C8_estimate_from_counted_characters (body : list (string * json)) :
  match counted_total_chars body with
  | Ok total =>
      exists slack,
        0 <= slack <= 2 * inputless_blocks body /\
        _count_tokens_estimate body = Ok (Z.max 1 ((total + slack) / 4))
  | Raise e => _count_tokens_estimate body = Raise e
  end /\
  (forall body' total total',
     inputless_blocks body = 0 -> inputless_blocks body' = 0 ->
     counted_total_chars body = Ok total -> counted_total_chars body' = Ok total' ->
     total <= total' ->
     exists n n',
       _count_tokens_estimate body = Ok n /\ _count_tokens_estimate body' = Ok n' /\
       1 <= n <= n') /\
  (forall s, String.length s = 4%nat -> _count_tokens_estimate [("system", JStr s)] = Ok 1).
Proof.
  split; [|split].
  - rewrite count_tokens_estimate_counted.
    destruct (counted_total_chars body) as [total|e]; simpl; [|reflexivity].
    exists (2 * inputless_blocks body). split; [|reflexivity].
    pose proof (inputless_blocks_nonneg body). lia.
  - intros body' total total' H0 H0' Ht Ht' Hle.
    exists (Z.max 1 (total / 4)), (Z.max 1 (total' / 4)).
    rewrite !count_tokens_estimate_counted, Ht, Ht', H0, H0'. simpl.
    rewrite !Z.add_0_r. split; [reflexivity|]. split; [reflexivity|].
    pose proof (Z.div_le_mono total total' 4 ltac:(lia) Hle). lia.
  - intros s Hs. unfold _count_tokens_estimate. simpl. rewrite Hs. reflexivity.
Qed.

(** C8 as stated fails: a system prompt of two text blocks is counted
    without the newline that joins them, 7 characters where the flattened
    text has 8, so the estimate is 1 and not 2. *)
Lemma C8_system_blocks_counterexample :
  _count_tokens_estimate two_block_system_body = Ok 1 /\
  _translate_system_prompt (JArr [text_block "abcd"; text_block "efg"])
    = Ok ("abcd" ++ newline ++ "efg") /\
  flattened_estimate two_block_system_body = Ok 2.
Proof. repeat split; reflexivity. Qed.

(** The estimate of a body with a tool-use block that has an input. *)
Example estimate_of_tool_use_body :
  inputless_blocks tool_use_body = 0 /\
  counted_total_chars tool_use_body = Ok 26 /\
  _count_tokens_estimate tool_use_body = Ok 6.
Proof. repeat split; reflexivity. Qed.

(** A text block has no input field: its six characters are estimated at 2
    tokens, where the six characters alone would give 1. *)
Example estimate_of_text_block_message :
  inputless_blocks text_block_message_body = 1 /\
  counted_total_chars text_block_message_body = Ok 6 /\
  _count_tokens_estimate text_block_message_body = Ok 2.
Proof. repeat split; reflexivity. Qed.

(** ** The route handlers *)

(** C9: without the backend client library the messages handler answers 501
    with error type not_implemented, having neither decoded the body nor
    read the settings; the count_tokens handler answers as it does with the
    library installed, an estimate for a body it can decode. *)
Theorem C9_not_implemented_without_litellm (env : environment) :
  litellm_installed env = false ->
  proxy_messages env =
    mk_handler_outcome []
      (Ok (JSONResponse 501
             (error_content "not_implemented"
                "litellm is not installed. Run: pip install litellm"))) /\
  proxy_count_tokens env = proxy_count_tokens (with_litellm true env) /\
  (forall body n,
     request_json env = Some body ->
     _count_tokens_estimate (fields body) = Ok n ->
     proxy_count_tokens env =
       mk_handler_outcome [ParseBody]
         (Ok (JSONResponse 200 (JObj [("input_tokens", JNum n)])))).
Proof.
  intros H. split; [|split].
  - unfold proxy_messages. rewrite H. reflexivity.
  - reflexivity.
  - intros body n Hbody Hn. unfold proxy_count_tokens. rewrite Hbody, Hn. reflexivity.
Qed.

(** The statement above where the library is missing. *)
Lemma C9_not_implemented_without_litellm_witness :
  litellm_installed no_litellm_environment = false /\
  proxy_messages no_litellm_environment =
    mk_handler_outcome []
      (Ok (JSONResponse 501
             (error_content "not_implemented"
                "litellm is not installed. Run: pip install litellm"))) /\
  proxy_count_tokens no_litellm_environment =
    mk_handler_outcome [ParseBody]
      (Ok (JSONResponse 200 (JObj [("input_tokens", JNum 1)]))).
Proof.
  split; [reflexivity|].
  destruct (C9_not_implemented_without_litellm no_litellm_environment eq_refl)
    as [H501 [_ Hcount]].
  split; [exact H501|].
  apply (Hcount streaming_request 1); reflexivity.
Defined.

(** C10: when the handler has called the backend and the call raised, the
    reply is the 502 JSON error, whatever the stream flag, with the message
    rewritten to the authentication notice when the text of the fault
    contains AuthenticationError or 401, and it is not a streaming response.
    A streaming response is only ever returned after a backend call that
    returned. *)
Theorem C10_backend_fault_is_a_502 (env : environment) (kw : call_kwargs)
    (error_text : string) :
  interactions (proxy_messages env) = [ParseBody; ReadSettings; CallBackend kw] ->
  acompletion env kw = BackendRaises error_text ->
  reply (proxy_messages env) =
    Ok (JSONResponse 502
          (error_content "proxy_error"
             (if str_contains "AuthenticationError" error_text
                 || str_contains "401" error_text
              then "Authentication failed with " ++ configured_provider env
                   ++ ". Check your API key."
              else error_text))) /\
  (forall env' body media_type headers,
     reply (proxy_messages env') = Ok (StreamingResponse body media_type headers) ->
     exists kw' v,
       interactions (proxy_messages env') = [ParseBody; ReadSettings; CallBackend kw'] /\
       acompletion env' kw' = BackendReturns v).
Proof.
  intros Hcall Hraise. split.
  - revert Hcall. unfold proxy_messages, configured_provider.
    destruct (negb (litellm_installed env)); [intros [=]|].
    destruct (request_json env) as [body|]; [|intros [=]].
    destruct (providers_get _ (API_PROVIDERS env)) as [[|p ps]|];
      [intros [=]| |intros [=]].
    destruct (negb (str_truthy _)); [intros [=]|].
    destruct (build_call_kwargs _ _ _ _ _ _) as [kw0|e]; [|intros [=]].
    simpl. intros [= ->]. rewrite Hraise. reflexivity.
  - intros env' body media_type headers. unfold proxy_messages.
    destruct (negb (litellm_installed env')); [intros [=]|].
    destruct (request_json env') as [body'|]; [|intros [=]].
    destruct (providers_get _ (API_PROVIDERS env')) as [[|p ps]|];
      [intros [=]| |intros [=]].
    destruct (negb (str_truthy _)); [intros [=]|].
    destruct (build_call_kwargs _ _ _ _ _ _) as [kw0|e]; [|intros [=]].
    simpl. destruct (acompletion env' kw0) as [text|v] eqn:Eb; [intros [=]|].
    intros _. exists kw0, v. split; [reflexivity|exact Eb].
Qed.

(** The statement above for a streaming request whose backend call raises an
    authentication error. *)
Lemma C10_backend_fault_is_a_502_witness :
  exists kw,
    interactions (proxy_messages failing_backend_environment)
      = [ParseBody; ReadSettings; CallBackend kw] /\
    truthy (kw_stream kw) = true /\
    acompletion failing_backend_environment kw
      = BackendRaises "AuthenticationError: invalid key" /\
    reply (proxy_messages failing_backend_environment) =
      Ok (JSONResponse 502
            (error_content "proxy_error"
               "Authentication failed with ionos. Check your API key.")).
Proof.
  eexists. split; [reflexivity|]. split; [reflexivity|]. split; [reflexivity|].
  apply (C10_backend_fault_is_a_502 failing_backend_environment _
           "AuthenticationError: invalid key" eq_refl eq_refl).
Defined.

(** ** The streaming transcoder: what a run forwards *)

Lemma segment_ok_nil (st : stream_state) : segment_ok st [] 0 [] st.
Proof.
  unfold segment_ok. simpl. rewrite app_nil_r. repeat split; lia.
Qed.

Lemma segment_ok_app (st st1 st2 : stream_state) (p1 p2 : list block_delta) (t1 t2 : Z)
    (e1 e2 : list event) :
  segment_ok st p1 t1 e1 st1 -> segment_ok st1 p2 t2 e2 st2 ->
  segment_ok st (p1 ++ p2) (t1 + t2) (e1 ++ e2) st2.
Proof.
  intros [B1 [P1 [T1 O1]]] [B2 [P2 [T2 O2]]]. unfold segment_ok.
  unfold delta_payloads, start_indices, stop_indices in *.
  rewrite List.forallb_app, B1, B2, !List.flat_map_app, P1, P2.
  repeat split; [lia|].
  rewrite app_assoc, O1, <- app_assoc, O2, app_assoc. reflexivity.
Qed.

Lemma handle_text_segment (st : stream_state) (text : string) :
  segment_ok st [TextDelta text] 1 (fst (handle_text st text)) (snd (handle_text st text)).
Proof.
  unfold handle_text, segment_ok, open_part, close_previous_block.
  destruct (current_block_type st) as [[|]|] eqn:E; simpl; rewrite ?E; simpl;
    repeat split; reflexivity.
Qed.

Lemma handle_tool_call_segment (U : nat -> string) (st : stream_state) (tc : tool_call_delta) :
  segment_ok st (fragment_payload tc) 0
    (fst (handle_tool_call U st tc)) (snd (handle_tool_call U st tc)).
Proof.
  unfold handle_tool_call, segment_ok, open_part, close_previous_block, fragment_payload.
  destruct (tool_call_accumulators st !! _) as [acc|];
    destruct (current_block_type st) as [bt|] eqn:E;
    destruct (opt_str_truthy (tc_id tc));
    (destruct (tc_function tc) as [fn|];
     [destruct (fn_arguments fn) as [a|]; [destruct (str_truthy a) eqn:Ea|]|]);
    simpl; rewrite ?Ea, ?E; simpl; rewrite ?Ea, ?E, ?app_nil_r; simpl;
    repeat split; lia.
Qed.

Lemma handle_tool_calls_segment (U : nat -> string) (tcs : list tool_call_delta)
    (st : stream_state) :
  segment_ok st (flat_map fragment_payload tcs) 0
    (fst (handle_tool_calls U st tcs)) (snd (handle_tool_calls U st tcs)).
Proof.
  revert st. induction tcs as [|tc tcs IH]; intros st; simpl.
  - apply segment_ok_nil.
  - pose proof (handle_tool_call_segment U st tc) as H1.
    destruct (handle_tool_call U st tc) as [evs1 st1]. simpl in H1.
    pose proof (IH st1) as H2.
    destruct (handle_tool_calls U st1 tcs) as [evs2 st2]. simpl in *.
    exact (segment_ok_app _ _ _ _ _ 0 0 _ _ H1 H2).
Qed.

(** The loop body on one chunk: a stretch that forwards the payloads of the
    chunk, followed by the closing events when the chunk carries a finish
    reason. *)
Lemma process_chunk_shape (U : nat -> string) (st : stream_state) (c : chunk) :
  exists evs st',
    segment_ok st (chunk_payloads c) (if chunk_has_text c then 1 else 0) evs st' /\
    process_chunk U st c =
      (if chunk_finishes c
       then ((evs ++ closing_events st' (final_stop_reason [c]))%list, st', true)
       else (evs, st', false)).
Proof.
  unfold process_chunk, chunk_payloads, chunk_has_text, chunk_finishes. simpl final_stop_reason.
  unfold chunk_finishes.
  destruct (choices c) as [|ch ?].
  { exists [], st. split; [apply segment_ok_nil|reflexivity]. }
  destruct (c_delta ch) as [d|].
  - assert (H1 : segment_ok st
                   (if opt_str_truthy (d_content d) then [TextDelta (or_empty (d_content d))] else [])
                   (if opt_str_truthy (d_content d) then 1 else 0)
                   (fst (if opt_str_truthy (d_content d)
                         then handle_text st (or_empty (d_content d)) else ([], st)))
                   (snd (if opt_str_truthy (d_content d)
                         then handle_text st (or_empty (d_content d)) else ([], st)))).
    { destruct (opt_str_truthy (d_content d)); [apply handle_text_segment|apply segment_ok_nil]. }
    destruct (if opt_str_truthy (d_content d) then handle_text st _ else _) as [evs1 st1].
    simpl in H1.
    pose proof (handle_tool_calls_segment U (d_tool_calls d) st1) as H2.
    destruct (handle_tool_calls U st1 (d_tool_calls d)) as [evs2 st2]. simpl in H2.
    exists (evs1 ++ evs2)%list, st2. split.
    + pose proof (segment_ok_app _ _ _ _ _ _ _ _ _ H1 H2) as H.
      rewrite Z.add_0_r in H. exact H.
    + destruct (opt_str_truthy (c_finish_reason ch)); [rewrite <- app_assoc|]; reflexivity.
  - exists [], st. split; [apply segment_ok_nil|].
    destruct (opt_str_truthy (c_finish_reason ch)); reflexivity.
Qed.

Lemma consumed_texts_cons (c : chunk) (cs : list chunk) :
  Z.of_nat (List.length (List.filter chunk_has_text (c :: cs))) =
    (if chunk_has_text c then 1 else 0)
    + Z.of_nat (List.length (List.filter chunk_has_text cs)).
Proof. simpl. destruct (chunk_has_text c); simpl List.length; lia. Qed.

(** The loop: a stretch over the consumed chunks, then the closing events
    if a chunk carried a finish reason; the other chunks are left. *)
Lemma stream_loop_shape (U : nat -> string) (cs : list chunk) (st : stream_state) :
  exists body st',
    segment_ok st (flat_map chunk_payloads (consumed cs)) (text_fragments cs) body st' /\
    stream_loop U st cs =
      mk_loop_outcome
        (body ++ if existsb chunk_finishes cs
                 then closing_events st' (final_stop_reason cs) else [])
        st' (existsb chunk_finishes cs) (after_finish cs).
Proof.
  revert st. induction cs as [|c cs IH]; intros st.
  - exists [], st. split; [apply segment_ok_nil|reflexivity].
  - destruct (process_chunk_shape U st c) as [evs [st1 [Hseg Hpc]]].
    cbn [stream_loop]. rewrite Hpc. unfold text_fragments.
    cbn [consumed existsb after_finish final_stop_reason] in *.
    destruct (chunk_finishes c) eqn:Ef.
    + exists evs, st1. split; [|reflexivity].
      cbn [flat_map]. rewrite app_nil_r, consumed_texts_cons. simpl.
      rewrite Z.add_0_r. exact Hseg.
    + destruct (IH st1) as [body [st2 [Hbody Hloop]]]. rewrite Hloop.
      exists (evs ++ body)%list, st2. split.
      * cbn [flat_map]. rewrite consumed_texts_cons.
        exact (segment_ok_app _ _ _ _ _ _ _ _ _ Hseg Hbody).
      * simpl. rewrite <- app_assoc. reflexivity.
Qed.

(** A whole run: the two opening events, a stretch over the consumed
    chunks from the initial state, and the tail. *)
Lemma stream_events_shape (U : nat -> string) (model : json) (s : backend_stream) :
  exists body st',
    segment_ok initial_state (flat_map chunk_payloads (consumed (chunks s)))
      (text_fragments (chunks s)) body st' /\
    stream_events U model s =
      ((MessageStart ("msg_" ++ uuid_prefix U 0 24) model :: Ping :: body ++ run_tail s st')%list,
       after_finish (chunks s)).
Proof.
  destruct (stream_loop_shape U (chunks s) initial_state) as [body [st' [Hseg Hloop]]].
  exists body, st'. split; [exact Hseg|].
  unfold stream_events, run_tail. rewrite Hloop. cbn [yielded returned final_state unconsumed].
  destruct (existsb chunk_finishes (chunks s)).
  - rewrite app_nil_r. reflexivity.
  - rewrite app_nil_r. destruct (ending s); reflexivity.
Qed.

Lemma closing_events_indices (st : stream_state) (reason : string) :
  delta_payloads (closing_events st reason) = [] /\
  start_indices (closing_events st reason) = [] /\
  stop_indices (closing_events st reason) = open_part st.
Proof.
  unfold closing_events, open_part. destruct (current_block_type st); repeat split; reflexivity.
Qed.

Lemma run_tail_indices (s : backend_stream) (st : stream_state) :
  delta_payloads (run_tail s st) = [] /\
  start_indices (run_tail s st) = [] /\
  stop_indices (run_tail s st) =
    (open_part st ++ if ends_normally s then [] else open_part st)%list.
Proof.
  unfold run_tail, ends_normally.
  destruct (closing_events_indices st (final_stop_reason (chunks s))) as [D1 [S1 T1]].
  destruct (closing_events_indices st "end_turn") as [D2 [S2 T2]].
  unfold delta_payloads, start_indices, stop_indices in *.
  destruct (existsb chunk_finishes (chunks s)); simpl orb.
  - rewrite app_nil_r. repeat split; assumption.
  - destruct (ending s); rewrite ?List.flat_map_app, ?D2, ?S2, ?T2, ?app_nil_r;
      repeat split; reflexivity.
Qed.

Lemma final_stop_reason_unfinished (cs : list chunk) :
  existsb chunk_finishes cs = false -> final_stop_reason cs = "end_turn".
Proof.
  induction cs as [|c cs IH]; simpl; [reflexivity|].
  destruct (chunk_finishes c); simpl; [discriminate|exact IH].
Qed.

Lemma consumed_after_finish (cs : list chunk) : (consumed cs ++ after_finish cs)%list = cs.
Proof.
  induction cs as [|c cs IH]; simpl; [reflexivity|].
  destruct (chunk_finishes c); simpl; [reflexivity|]. rewrite IH. reflexivity.
Qed.

(** X1: the deltas of a run carry, in the order of arrival, exactly the text
    and argument fragments of the chunks up to the first finish reason:
    nothing is dropped, merged, repeated or reordered. *)
Theorem deltas_forward_the_fragments_in_order (U : nat -> string) (model : json)
    (s : backend_stream) :
  delta_payloads (fst (stream_events U model s)) =
    flat_map chunk_payloads (consumed (chunks s)).
Proof.
  destruct (stream_events_shape U model s) as [body [st' [[_ [Hp _]] ->]]].
  destruct (run_tail_indices s st') as [Hd _].
  cbn [fst]. unfold delta_payloads in *. cbn [flat_map app].
  rewrite List.flat_map_app, Hp, Hd, app_nil_r. reflexivity.
Qed.

(** X2: the loop reads the chunks up to and including the first one whose first
    choice has a non-empty finish reason, and leaves every later chunk
    unread. *)
Theorem chunks_after_the_finish_are_left_unread (U : nat -> string) (model : json)
    (s : backend_stream) :
  snd (stream_events U model s) = after_finish (chunks s) /\
  chunks s = (consumed (chunks s) ++ snd (stream_events U model s))%list /\
  (existsb chunk_finishes (chunks s) = false -> snd (stream_events U model s) = []).
Proof.
  destruct (stream_events_shape U model s) as [body [st' [_ ->]]]. cbn [snd].
  split; [reflexivity|]. split; [symmetry; apply consumed_after_finish|].
  induction (chunks s) as [|c cs IH]; simpl; [reflexivity|].
  destruct (chunk_finishes c); simpl; [discriminate|exact IH].
Qed.

(** X3: every message_delta event of a run reports as output tokens the number
    of consumed chunks that carried text, and as stop reason the translated
    finish reason of the chunk that ended the run, end_turn when none did. *)
Theorem message_delta_reports_text_chunks (U : nat -> string) (model : json)
    (s : backend_stream) (stop_reason : string) (n : Z) :
  In (MessageDelta stop_reason n) (fst (stream_events U model s)) ->
  n = text_fragments (chunks s) /\ stop_reason = final_stop_reason (chunks s).
Proof.
  destruct (stream_events_shape U model s) as [body [st' [[Hb [_ [Ht _]]] ->]]].
  cbn [fst]. intros [H|[H|H]]; try discriminate.
  apply List.in_app_or in H. destruct H as [H|H].
  - exfalso. rewrite List.forallb_forall in Hb. apply Hb in H. discriminate.
  - change (output_tokens initial_state) with 0 in Ht. rewrite Z.add_0_l in Ht.
    unfold run_tail in H.
    destruct (existsb chunk_finishes (chunks s)) eqn:Ef.
    + unfold closing_events in H. apply List.in_app_or in H. destruct H as [H|H].
      * destruct (current_block_type st'); [destruct H as [H|[]]; discriminate|destruct H].
      * destruct H as [H|[H|[]]]; [|discriminate]. injection H as <- <-.
        split; [exact Ht|reflexivity].
    + rewrite (final_stop_reason_unfinished _ Ef).
      assert (Hc : In (MessageDelta stop_reason n) (closing_events st' "end_turn")).
      { destruct (ending s); [exact H|].
        apply List.in_app_or in H. destruct H as [H|H]; exact H. }
      unfold closing_events in Hc. apply List.in_app_or in Hc. destruct Hc as [Hc|Hc].
      * destruct (current_block_type st'); [destruct Hc as [Hc|[]]; discriminate|destruct Hc].
      * destruct Hc as [Hc|[Hc|[]]]; [|discriminate]. injection Hc as <- <-.
        split; [exact Ht|reflexivity].
Qed.

(** The statement above at the run over one text chunk and a finish chunk. *)
Lemma message_delta_reports_text_chunks_witness :
  In (MessageDelta "max_tokens" 1)
     (fst (stream_events sample_uuid (JStr "m")
             (mk_backend_stream [text_chunk "Hi"; finish_chunk "length"] Exhausted))) /\
  1 = text_fragments [text_chunk "Hi"; finish_chunk "length"] /\
  "max_tokens" = final_stop_reason [text_chunk "Hi"; finish_chunk "length"].
Proof.
  split.
  - simpl. do 5 right. left. reflexivity.
  - apply (message_delta_reports_text_chunks sample_uuid (JStr "m")
             (mk_backend_stream [text_chunk "Hi"; finish_chunk "length"] Exhausted)).
    simpl. do 5 right. left. reflexivity.
Defined.

(** X4: a run that ends by a finish reason or by the exhaustion of the stream
    ends with one message_delta followed by one message_stop, and has no
    other event of these two kinds. *)
Theorem normal_run_ends_with_one_terminal_pair (U : nat -> string) (model : json)
    (s : backend_stream) :
  ends_normally s = true ->
  exists pre,
    fst (stream_events U model s) =
      (pre ++ [MessageDelta (final_stop_reason (chunks s)) (text_fragments (chunks s));
               MessageStop])%list /\
    forallb (fun e => negb (is_message_delta e || is_message_stop e)) pre = true.
Proof.
  intros Hn.
  destruct (stream_events_shape U model s) as [body [st' [[Hb [_ [Ht _]]] ->]]].
  change (output_tokens initial_state) with 0 in Ht. rewrite Z.add_0_l in Ht.
  cbn [fst].
  assert (Htail : run_tail s st' = closing_events st' (final_stop_reason (chunks s))).
  { unfold run_tail, ends_normally in *.
    destruct (existsb chunk_finishes (chunks s)) eqn:Ef; [reflexivity|].
    rewrite (final_stop_reason_unfinished _ Ef).
    destruct (ending s); [reflexivity|discriminate]. }
  rewrite Htail. unfold closing_events. rewrite Ht.
  exists (MessageStart ("msg_" ++ uuid_prefix U 0 24) model :: Ping :: body
            ++ match current_block_type st' with
               | Some _ => [ContentBlockStop (block_index st')]
               | None => []
               end)%list.
  split.
  - cbn [app]. rewrite <- app_assoc. reflexivity.
  - cbn [forallb app is_message_delta is_message_stop orb negb andb].
    rewrite List.forallb_app. apply andb_true_iff. split.
    + rewrite List.forallb_forall in *. intros e He. apply Hb in He.
      destruct e; simpl in *; reflexivity || discriminate.
    + destruct (current_block_type st'); reflexivity.
Qed.

(** The statement above at the run over a tool call that the stream leaves
    unfinished. *)
Lemma normal_run_ends_with_one_terminal_pair_witness :
  let s := mk_backend_stream [tool_chunk 0 (Some "call_a") (Some "get_weather") (Some "{}")]
             Exhausted in
  ends_normally s = true /\
  exists pre,
    fst (stream_events sample_uuid (JStr "m") s) =
      (pre ++ [MessageDelta (final_stop_reason (chunks s)) (text_fragments (chunks s));
               MessageStop])%list /\
    forallb (fun e => negb (is_message_delta e || is_message_stop e)) pre = true.
Proof.
  intros s. split; [reflexivity|].
  apply (normal_run_ends_with_one_terminal_pair sample_uuid (JStr "m") s). reflexivity.
Defined.

(** X5: every block a run starts is stopped, however the run ends; and when the
    run does not end by a fault, the stops are the starts, index by index:
    each block is stopped once, in the order the blocks were started. *)
Theorem started_blocks_are_stopped (U : nat -> string) (model : json) (s : backend_stream) :
  let evs := fst (stream_events U model s) in
  (forall i, In i (start_indices evs) -> In i (stop_indices evs)) /\
  (ends_normally s = true -> stop_indices evs = start_indices evs).
Proof.
  destruct (stream_events_shape U model s) as [body [st' [[_ [_ [_ Ho]]] ->]]].
  destruct (run_tail_indices s st') as [_ [Hs Ht]].
  cbn [fst]. change (open_part initial_state) with (@nil Z) in Ho. cbn [app] in Ho.
  unfold start_indices, stop_indices in *. cbn [flat_map app].
  rewrite !List.flat_map_app, Hs, Ht, app_nil_r, Ho. split.
  - intros i Hi. rewrite app_assoc. apply List.in_or_app. left. exact Hi.
  - intros ->. rewrite app_nil_r. reflexivity.
Qed.

(** ** The streaming transcoder: a delta follows the start of its block *)

Lemma existsb_eqb_In (i : Z) (l : list Z) : In i l -> existsb (Z.eqb i) l = true.
Proof.
  intros H. apply List.existsb_exists. exists i. split; [exact H|apply Z.eqb_refl].
Qed.

Lemma started_scan_app (a b : list event) (started : list Z) :
  started_scan started (a ++ b) =
    match started_scan started a with
    | Some started' => started_scan started' b
    | None => None
    end.
Proof.
  revert started. induction a as [|e a IH]; intros started; [reflexivity|].
  destruct e; simpl; try apply IH.
  destruct (existsb (Z.eqb index) started); [apply IH|reflexivity].
Qed.

Lemma started_ok_insert (started : list Z) (m : gmap Z accumulator) (i : Z) (x : accumulator) :
  (forall k a, m !! k = Some a -> In (acc_block_index a) started) ->
  In (acc_block_index x) started ->
  forall k a, <[i := x]> m !! k = Some a -> In (acc_block_index a) started.
Proof.
  intros Hm Hx k a H. apply lookup_insert_Some in H.
  destruct H as [[_ <-]|[_ H]]; [exact Hx|exact (Hm k a H)].
Qed.

Lemma handle_text_started (st : stream_state) (text : string) (started : list Z) :
  started_ok started st ->
  exists started',
    started_scan started (fst (handle_text st text)) = Some started' /\
    started_ok started' (snd (handle_text st text)) /\
    incl started started'.
Proof.
  intros [Hacc Hopen]. unfold handle_text, close_previous_block.
  destruct (current_block_type st) as [[|]|] eqn:E; simpl.
  - exists started. rewrite existsb_eqb_In by (apply Hopen; discriminate).
    repeat split; [exact Hacc|simpl; rewrite E; exact Hopen|apply incl_refl].
  - exists (block_index st + 1 :: started). rewrite Z.eqb_refl. simpl.
    repeat split; simpl; [intros k a H; right; exact (Hacc k a H)|left; reflexivity|
                          apply incl_tl, incl_refl].
  - exists (block_index st :: started). rewrite Z.eqb_refl. simpl.
    repeat split; simpl; [intros k a H; right; exact (Hacc k a H)|left; reflexivity|
                          apply incl_tl, incl_refl].
Qed.

Lemma handle_tool_call_started (U : nat -> string) (st : stream_state) (tc : tool_call_delta)
    (started : list Z) :
  started_ok started st ->
  exists started',
    started_scan started (fst (handle_tool_call U st tc)) = Some started' /\
    started_ok started' (snd (handle_tool_call U st tc)) /\
    incl started started'.
Proof.
  intros [Hacc Hopen]. unfold handle_tool_call.
  destruct (tool_call_accumulators st !! _) as [acc|] eqn:L.
  - exists started. pose proof (Hacc _ _ L) as Hin.
    destruct (tc_function tc) as [fn|]; [|repeat split; [exact Hacc|exact Hopen|apply incl_refl]].
    destruct (str_truthy _); simpl.
    + rewrite existsb_eqb_In by (destruct (opt_str_truthy (fn_name fn)); exact Hin).
      repeat split; [|exact Hopen|apply incl_refl]. simpl.
      apply started_ok_insert; [exact Hacc|].
      destruct (opt_str_truthy (fn_name fn)); exact Hin.
    + repeat split; [|exact Hopen|apply incl_refl]. simpl.
      apply started_ok_insert; [exact Hacc|].
      destruct (opt_str_truthy (fn_name fn)); exact Hin.
  - unfold close_previous_block.
    set (bi := match current_block_type st with
               | Some _ => block_index st + 1
               | None => block_index st
               end).
    exists (bi :: started).
    assert (Hacc' : forall k a, tool_call_accumulators st !! k = Some a ->
                                In (acc_block_index a) (bi :: started)).
    { intros k a H. right. exact (Hacc k a H). }
    destruct (current_block_type st) as [bt|];
      destruct (opt_str_truthy (tc_id tc));
      (destruct (tc_function tc) as [fn|];
       [destruct (opt_str_truthy (fn_name fn)); destruct (str_truthy _)|]);
      simpl; rewrite ?Z.eqb_refl; simpl;
      (repeat split;
       [cbn [snd fst tool_call_accumulators];
        repeat (apply started_ok_insert; [|left; reflexivity]); exact Hacc'
       |intros _; left; reflexivity
       |apply incl_tl, incl_refl]).
Qed.

Lemma handle_tool_calls_started (U : nat -> string) (tcs : list tool_call_delta)
    (st : stream_state) (started : list Z) :
  started_ok started st ->
  exists started',
    started_scan started (fst (handle_tool_calls U st tcs)) = Some started' /\
    started_ok started' (snd (handle_tool_calls U st tcs)) /\
    incl started started'.
Proof.
  revert st started. induction tcs as [|tc tcs IH]; intros st started Hok; simpl.
  - exists started. repeat split; [apply Hok..|apply incl_refl].
  - destruct (handle_tool_call_started U st tc started Hok) as [s1 [H1 [Hok1 Hi1]]].
    destruct (handle_tool_call U st tc) as [evs1 st1]. simpl in *.
    destruct (IH st1 s1 Hok1) as [s2 [H2 [Hok2 Hi2]]].
    destruct (handle_tool_calls U st1 tcs) as [evs2 st2]. simpl in *.
    exists s2. rewrite started_scan_app, H1.
    repeat split; [exact H2|apply Hok2..|exact (incl_tran Hi1 Hi2)].
Qed.

Lemma closing_events_started (st : stream_state) (reason : string) (started : list Z) :
  started_scan started (closing_events st reason) = Some started.
Proof. unfold closing_events. destruct (current_block_type st); reflexivity. Qed.

Lemma process_chunk_started (U : nat -> string) (st : stream_state) (c : chunk)
    (started : list Z) :
  started_ok started st ->
  exists started',
    started_scan started (fst (fst (process_chunk U st c))) = Some started' /\
    started_ok started' (snd (fst (process_chunk U st c))).
Proof.
  intros Hok. unfold process_chunk.
  destruct (choices c) as [|ch ?]; [exists started; split; [reflexivity|exact Hok]|].
  assert (H1 : exists s1,
             started_scan started
               (fst match c_delta ch with
                    | Some d => if opt_str_truthy (d_content d)
                                then handle_text st (or_empty (d_content d)) else ([], st)
                    | None => ([], st)
                    end) = Some s1 /\
             started_ok s1
               (snd match c_delta ch with
                    | Some d => if opt_str_truthy (d_content d)
                                then handle_text st (or_empty (d_content d)) else ([], st)
                    | None => ([], st)
                    end)).
  { destruct (c_delta ch) as [d|]; [|exists started; split; [reflexivity|exact Hok]].
    destruct (opt_str_truthy (d_content d)); [|exists started; split; [reflexivity|exact Hok]].
    destruct (handle_text_started st (or_empty (d_content d)) started Hok) as [s1 [H [H' _]]].
    exists s1. split; assumption. }
  destruct H1 as [s1 [H1 Hok1]].
  destruct (match c_delta ch with Some d => _ | None => ([], st) end) as [evs1 st1].
  simpl in H1, Hok1.
  assert (H2 : exists s2,
             started_scan s1
               (fst match c_delta ch with
                    | Some d => handle_tool_calls U st1 (d_tool_calls d)
                    | None => ([], st1)
                    end) = Some s2 /\
             started_ok s2
               (snd match c_delta ch with
                    | Some d => handle_tool_calls U st1 (d_tool_calls d)
                    | None => ([], st1)
                    end)).
  { destruct (c_delta ch) as [d|]; [|exists s1; split; [reflexivity|exact Hok1]].
    destruct (handle_tool_calls_started U (d_tool_calls d) st1 s1 Hok1) as [s2 [H [H' _]]].
    exists s2. split; assumption. }
  destruct H2 as [s2 [H2 Hok2]].
  destruct (match c_delta ch with
            | Some d => handle_tool_calls U st1 (d_tool_calls d)
            | None => ([], st1)
            end) as [evs2 st2].
  simpl in H2, Hok2. exists s2.
  destruct (opt_str_truthy (c_finish_reason ch)); simpl.
  - rewrite started_scan_app, H1, started_scan_app, H2, closing_events_started.
    split; [reflexivity|exact Hok2].
  - rewrite started_scan_app, H1, H2. split; [reflexivity|exact Hok2].
Qed.

Lemma stream_loop_started (U : nat -> string) (cs : list chunk) (st : stream_state)
    (started : list Z) :
  started_ok started st ->
  exists started', started_scan started (yielded (stream_loop U st cs)) = Some started'.
Proof.
  revert st started. induction cs as [|c cs IH]; intros st started Hok; simpl.
  - exists started. reflexivity.
  - destruct (process_chunk_started U st c started Hok) as [s1 [H1 Hok1]].
    destruct (process_chunk U st c) as [[evs st1] ret]. simpl in *.
    destruct ret; simpl; [exists s1; exact H1|].
    destruct (IH st1 s1 Hok1) as [s2 H2]. exists s2.
    rewrite started_scan_app, H1. exact H2.
Qed.

Lemma started_scan_delta (pre : list event) :
  forall (started started' : list Z) (i : Z) (d : block_delta) (post : list event),
    started_scan started (pre ++ ContentBlockDelta i d :: post) = Some started' ->
    In i started \/ exists b, In (ContentBlockStart i b) pre.
Proof.
  induction pre as [|e pre IH]; intros started started' i d post H.
  - simpl in H. left. destruct (existsb (Z.eqb i) started) eqn:E; [|discriminate].
    apply List.existsb_exists in E. destruct E as [x [Hx Hix]].
    apply Z.eqb_eq in Hix. subst x. exact Hx.
  - destruct e; simpl in H;
      try (destruct (IH _ _ _ _ _ H) as [Hin|[b Hb]]; [left; exact Hin|right; exists b; right; exact Hb]).
    + destruct (IH _ _ _ _ _ H) as [[Hin|Hin]|[b Hb]].
      * subst index. right. exists block. left. reflexivity.
      * left. exact Hin.
      * right. exists b. right. exact Hb.
    + destruct (existsb (Z.eqb index) started); [|discriminate].
      destruct (IH _ _ _ _ _ H) as [Hin|[b Hb]]; [left; exact Hin|right; exists b; right; exact Hb].
Qed.

(** X6: every content_block_delta event of a run, a text delta as well as an
    argument delta of a tool call, comes after a content_block_start event
    with the same block index. *)
Theorem delta_follows_start_of_its_block (U : nat -> string) (model : json)
    (s : backend_stream) (pre post : list event) (i : Z) (d : block_delta) :
  fst (stream_events U model s) = (pre ++ ContentBlockDelta i d :: post)%list ->
  exists b, In (ContentBlockStart i b) pre.
Proof.
  intros Hsplit.
  assert (Hok : started_ok [] initial_state).
  { split; [intros k a H; unfold initial_state in H; cbn [tool_call_accumulators] in H;
            rewrite lookup_empty in H; discriminate
           |intros H; exfalso; apply H; reflexivity]. }
  destruct (stream_loop_started U (chunks s) initial_state [] Hok) as [s1 H1].
  assert (Hscan : exists s2, started_scan [] (fst (stream_events U model s)) = Some s2).
  { unfold stream_events. cbn [fst started_scan].
    rewrite started_scan_app, H1.
    destruct (returned _); [exists s1; reflexivity|].
    exists s1. destruct (ending s); cbn [app];
      rewrite ?started_scan_app, !closing_events_started; reflexivity. }
  destruct Hscan as [s2 Hscan]. rewrite Hsplit in Hscan.
  destruct (started_scan_delta pre _ _ _ _ _ Hscan) as [[]|H]. exact H.
Qed.

(** The statement above at the text delta of a run over one text chunk. *)
Lemma delta_follows_start_of_its_block_witness :
  exists b,
    In (ContentBlockStart 0 b)
       [MessageStart ("msg_" ++ uuid_prefix sample_uuid 0 24) (JStr "m"); Ping;
        ContentBlockStart 0 TextContent].
Proof.
  apply (delta_follows_start_of_its_block sample_uuid (JStr "m")
           (mk_backend_stream [text_chunk "Hi"] Exhausted) _
           [ContentBlockStop 0; MessageDelta "end_turn" 1; MessageStop] 0 (TextDelta "Hi")).
  reflexivity.
Defined.

(** ** The converters *)

(** X7: the finish-reason table never lets a backend reason through: the result
    is one of the three stop reasons, max_tokens exactly for length and
    tool_use exactly for tool_calls; a missing, empty or unknown reason gives
    end_turn. *)
Theorem finish_reason_is_one_of_three (reason : option string) :
  let r := _translate_finish_reason reason in
  (r = "end_turn" \/ r = "max_tokens" \/ r = "tool_use") /\
  (r = "max_tokens" <-> reason = Some "length") /\
  (r = "tool_use" <-> reason = Some "tool_calls").
Proof.
  unfold _translate_finish_reason.
  assert (Hkey : match reason with
                 | Some r => if str_truthy r then r else ""
                 | None => ""
                 end = or_empty reason).
  { destruct reason as [r|]; [|reflexivity]. unfold str_truthy.
    destruct (String.eqb r "") eqn:E; [apply String.eqb_eq in E; subst r|]; reflexivity. }
  rewrite Hkey.
  destruct (String.eqb (or_empty reason) "stop") eqn:E1.
  { apply String.eqb_eq in E1. destruct reason as [r|]; simpl in E1; [subst r|discriminate].
    cbv zeta. repeat split; try (left; reflexivity); intros [=]. }
  destruct (String.eqb (or_empty reason) "length") eqn:E2.
  { apply String.eqb_eq in E2. destruct reason as [r|]; simpl in E2; [subst r|discriminate].
    cbv zeta. repeat split; try (right; left; reflexivity); try reflexivity; intros [=]. }
  destruct (String.eqb (or_empty reason) "tool_calls") eqn:E3.
  { apply String.eqb_eq in E3. destruct reason as [r|]; simpl in E3; [subst r|discriminate].
    cbv zeta. repeat split; try (right; right; reflexivity); try reflexivity; intros [=]. }
  assert (Hend : (if String.eqb (or_empty reason) "content_filter" then "end_turn" else "end_turn")
                 = "end_turn")
    by (destruct (String.eqb (or_empty reason) "content_filter"); reflexivity).
  rewrite Hend. cbv zeta. split; [left; reflexivity|].
  split; (split; [intros H; discriminate H|intros ->; simpl in *; discriminate]).
Qed.

(** X8: a system prompt given as a list of text blocks is translated to the
    texts joined by newlines, in order; a string is passed through; and a
    dictionary of another type anywhere in the list is ignored. *)
Theorem system_prompt_joins_text_blocks (texts : list string) :
  _translate_system_prompt (JArr (map text_block texts)) = Ok (str_join newline texts) /\
  (forall s, _translate_system_prompt (JStr s) = Ok s) /\
  (forall before after d,
     json_eq_str (dict_get_or "type" JNull d) "text" = false ->
     _translate_system_prompt (JArr (before ++ JObj d :: after)) =
       _translate_system_prompt (JArr (before ++ after))).
Proof.
  split; [|split].
  - unfold _translate_system_prompt, py_join.
    assert (H : mapM as_str (flat_map text_part_of (map text_block texts)) = Ok texts).
    { induction texts as [|t texts IH]; [reflexivity|].
      cbn [map flat_map]. change (text_part_of (text_block t)) with [JStr t].
      cbn [app mapM as_str bind]. rewrite IH. reflexivity. }
    rewrite H. reflexivity.
  - reflexivity.
  - intros before after d Hd. unfold _translate_system_prompt.
    rewrite !List.flat_map_app. cbn [flat_map text_part_of]. rewrite Hd. reflexivity.
Qed.

(** X9: tool definitions are translated one to one and in order into function
    envelopes that carry the name, the description and the input schema
    unchanged; no tools, or an empty list of tools, gives no tool list at
    all. *)
Theorem tools_are_translated_one_to_one (tools : list (list (string * json))) :
  _translate_tools_to_openai (JArr (map JObj tools)) =
    Ok (if is_nonempty tools then Some (map tool_envelope tools) else None) /\
  _translate_tools_to_openai JNull = Ok None /\
  (forall t,
     dict_get "name" (block_fields (dict_get_or "function" JNull (block_fields (tool_envelope t))))
       = Some (dict_get_or "name" (JStr "") t) /\
     dict_get "parameters"
       (block_fields (dict_get_or "function" JNull (block_fields (tool_envelope t))))
       = Some (dict_get_or "input_schema" (JObj []) t)).
Proof.
  split; [|split; [reflexivity|intros t; split; reflexivity]].
  assert (H : mapM tool_to_openai (map JObj tools) = Ok (map tool_envelope tools)).
  { induction tools as [|t tools IH]; [reflexivity|].
    cbn [map mapM]. rewrite IH. reflexivity. }
  destruct tools as [|t tools]; [reflexivity|].
  unfold _translate_tools_to_openai. cbn [map truthy negb py_iter bind].
  cbn [map] in H. rewrite H. reflexivity.
Qed.

Lemma translate_message_nonempty (U : nat -> string) (k : nat) (msg : json)
    (out : list json) (k' : nat) :
  translate_message U k msg = Ok (out, k') -> is_nonempty out = true.
Proof.
  unfold translate_message. destruct (as_dict msg) as [m|e]; simpl; [|discriminate].
  destruct (dict_get_or "content" JNull m) as [| | |s|blocks|d]; try (intros [= <- _]; reflexivity).
  destruct (block_loop U _ blocks) as [acc|e]; simpl; [|discriminate].
  unfold build_messages.
  destruct (json_eq_str _ "assistant" && is_nonempty (tool_calls acc)).
  { destruct (is_nonempty (text_parts acc)); simpl;
      [destruct (py_join newline (text_parts acc)); simpl|]; intros [= <- _]; reflexivity. }
  destruct (is_nonempty (tool_results acc)) eqn:Er.
  { destruct (is_nonempty (text_parts acc)); simpl;
      [destruct (py_join newline (text_parts acc)); simpl|]; intros [= <- _];
      [reflexivity|exact Er]. }
  destruct (is_nonempty (text_parts acc)); simpl;
    [destruct (py_join newline (text_parts acc)); simpl|]; intros [= <- _]; reflexivity.
Qed.

Lemma translate_messages_from_length (U : nat -> string) (messages : list json) :
  forall (k : nat) (out : list json),
    translate_messages_from U k messages = Ok out ->
    (List.length messages <= List.length out)%nat.
Proof.
  induction messages as [|msg messages IH]; intros k out; simpl.
  - intros _. lia.
  - destruct (translate_message U k msg) as [[o k']|e] eqn:E; simpl; [|discriminate].
    destruct (translate_messages_from U k' messages) as [outs|e] eqn:E'; simpl; [|discriminate].
    intros [= <-]. apply translate_message_nonempty in E. apply IH in E'.
    rewrite List.length_app. destruct o; [discriminate|]. simpl. lia.
Qed.

(** X10: no inbound message is dropped: when the translation returns, it has at
    least as many backend messages as there were inbound messages. *)
Theorem no_message_is_dropped (U : nat -> string) (messages out : list json) :
  _translate_messages_to_openai U messages = Ok out ->
  (List.length messages <= List.length out)%nat.
Proof. apply translate_messages_from_length. Qed.

(** The statement above at a user message with a text block and two tool
    results, which becomes three backend messages. *)
Lemma no_message_is_dropped_witness :
  exists out,
    _translate_messages_to_openai sample_uuid
      [JObj (user_message [text_block "done"; tool_result_block "T1" "ok";
                           tool_result_block "T2" "ok"])] = Ok out /\
    List.length out = 3%nat /\
    (1 <= List.length out)%nat.
Proof.
  eexists. split; [reflexivity|]. split; [reflexivity|].
  apply (no_message_is_dropped sample_uuid
           [JObj (user_message [text_block "done"; tool_result_block "T1" "ok";
                                tool_result_block "T2" "ok"])]).
  reflexivity.
Defined.

(** X11: a conversation of messages with string contents is passed through
    unchanged: the same messages, in the same order, with the same roles. *)
Theorem plain_messages_pass_through (U : nat -> string) (messages : list (string * string)) :
  _translate_messages_to_openai U (map plain_message messages) =
    Ok (map plain_message messages).
Proof.
  unfold _translate_messages_to_openai. generalize 0%nat.
  induction messages as [|[r t] messages IH]; intros k; [reflexivity|].
  cbn [map translate_messages_from]. change (translate_message U k (plain_message (r, t)))
    with (@Ok (list json * nat) ([plain_message (r, t)], k)).
  cbn [bind snd fst]. rewrite IH. reflexivity.
Qed.

(** The tool calls the block loop collects are those of the tool_use blocks,
    in order, each drawing the next uuid. *)
Lemma block_loop_tool_calls (U : nat -> string) (blocks : list json) :
  forall acc acc' : block_lists,
    block_loop U acc blocks = Ok acc' ->
    tool_calls acc' = (tool_calls acc ++ tool_calls_from U (uuids_drawn acc) blocks)%list.
Proof.
  induction blocks as [|block blocks IH]; intros acc acc'.
  - simpl. intros [= <-]. rewrite app_nil_r. reflexivity.
  - cbn [block_loop tool_calls_from].
    destruct (block_step U acc block) as [acc1|e] eqn:Es; simpl; [|discriminate].
    intros H. apply IH in H. rewrite H. clear H IH.
    destruct block as [| | | | |b]; simpl in Es; try (injection Es as <-; reflexivity).
    unfold is_block_of_type.
    destruct (dict_get_or "type" JNull b) as [| | |t| |];
      simpl in Es |- *; try (injection Es as <-; reflexivity).
    destruct (String.eqb t "text") eqn:E1.
    { apply String.eqb_eq in E1. subst t. injection Es as <-. reflexivity. }
    destruct (String.eqb t "tool_use") eqn:E2.
    { injection Es as <-. simpl. rewrite <- app_assoc. reflexivity. }
    destruct (String.eqb t "tool_result") eqn:E3.
    { destruct (flatten_result_content _); simpl in Es; [|discriminate].
      injection Es as <-. reflexivity. }
    injection Es as <-. reflexivity.
Qed.

Lemma block_loop_uuids_drawn (U : nat -> string) (blocks : list json) :
  forall acc acc' : block_lists,
    block_loop U acc blocks = Ok acc' ->
    uuids_drawn acc' =
      (uuids_drawn acc
       + List.length (List.filter (is_block_of_type "tool_use") blocks))%nat.
Proof.
  induction blocks as [|block blocks IH]; intros acc acc'.
  - simpl. intros [= <-]. lia.
  - cbn [block_loop List.filter].
    destruct (block_step U acc block) as [acc1|e] eqn:Es; simpl; [|discriminate].
    intros H. apply IH in H. rewrite H. clear H IH.
    destruct block as [| | | | |b]; simpl in Es; try (injection Es as <-; simpl; lia).
    unfold is_block_of_type.
    destruct (dict_get_or "type" JNull b) as [| | |t| |];
      simpl in Es |- *; try (injection Es as <-; simpl; lia).
    destruct (String.eqb t "text") eqn:E1.
    { apply String.eqb_eq in E1. subst t. injection Es as <-. simpl. lia. }
    destruct (String.eqb t "tool_use") eqn:E2.
    { injection Es as <-. simpl. lia. }
    destruct (String.eqb t "tool_result") eqn:E3.
    { destruct (flatten_result_content _); simpl in Es; [|discriminate].
      injection Es as <-. simpl. lia. }
    injection Es as <-. simpl. lia.
Qed.

Lemma tool_calls_from_length (U : nat -> string) (blocks : list json) :
  forall k,
    List.length (tool_calls_from U k blocks) =
      List.length (List.filter (is_block_of_type "tool_use") blocks).
Proof.
  induction blocks as [|block blocks IH]; intros k; [reflexivity|].
  cbn [tool_calls_from List.filter].
  destruct (is_block_of_type "tool_use" block); simpl; rewrite IH; reflexivity.
Qed.

(** X12: an assistant message with tool_use blocks becomes exactly one assistant
    message: its tool_calls hold one call per tool_use block, in order, and
    its content is the joined text or None.  Tool results in such a message
    are not forwarded. *)
Theorem assistant_tool_use_gives_one_message (U : nat -> string) (k : nat)
    (m : list (string * json)) (blocks : list json) :
  dict_get_or "content" JNull m = JArr blocks ->
  json_eq_str (dict_get_or "role" (JStr "user") m) "assistant" = true ->
  existsb (is_block_of_type "tool_use") blocks = true ->
  (r <- translate_message U k (JObj m) ;; Ok (fst r)) =
    assistant_tool_call_translation U k blocks /\
  List.length (tool_calls_from U k blocks) =
    List.length (List.filter (is_block_of_type "tool_use") blocks).
Proof.
  intros Hcontent Hrole Huse. split; [|apply tool_calls_from_length].
  unfold translate_message, assistant_tool_call_translation. simpl. rewrite Hcontent.
  pose proof (block_loop_lists U blocks (mk_block_lists [] [] [] k)) as H.
  destruct (tool_result_messages blocks) as [messages|e]; [|rewrite H; reflexivity].
  destruct H as [calls [k1 [Hloop Hcalls]]].
  pose proof (block_loop_tool_calls U blocks _ _ Hloop) as Hexact. simpl in Hexact.
  rewrite Hloop. simpl. unfold build_messages. simpl.
  rewrite Hrole, Hcalls, Huse. simpl. rewrite Hexact.
  destruct (is_nonempty (text_parts_of blocks)); simpl; [|reflexivity].
  destruct (py_join newline (text_parts_of blocks)); reflexivity.
Qed.

(** The statement above at an assistant message with a text block, a tool
    call and a stray tool result. *)
Lemma assistant_tool_use_gives_one_message_witness :
  let blocks := [text_block "Looking it up."; tool_use_block "T1" "get_weather" (JObj []);
                 tool_result_block "T0" "stale"] in
  let m := [("role", JStr "assistant"); ("content", JArr blocks)] in
  dict_get_or "content" JNull m = JArr blocks /\
  json_eq_str (dict_get_or "role" (JStr "user") m) "assistant" = true /\
  existsb (is_block_of_type "tool_use") blocks = true /\
  (r <- translate_message sample_uuid 0 (JObj m) ;; Ok (fst r)) =
    Ok [JObj [("role", JStr "assistant");
              ("tool_calls",
                JArr [JObj [("id", JStr "T1"); ("type", JStr "function");
                            ("function",
                              JObj [("name", JStr "get_weather");
                                    ("arguments", JStr "{}")])]]);
              ("content", JStr "Looking it up.")]].
Proof.
  intros blocks m.
  split; [reflexivity|]. split; [reflexivity|]. split; [reflexivity|].
  rewrite (proj1 (assistant_tool_use_gives_one_message sample_uuid 0 m blocks
                    eq_refl eq_refl eq_refl)).
  reflexivity.
Defined.

(** X13: a message whose block list has neither tool_use nor tool_result blocks
    becomes exactly one message with the same role and the text parts joined
    by newlines: the empty string when it has no text block at all. *)
Theorem text_blocks_give_one_message (U : nat -> string) (k : nat)
    (m : list (string * json)) (blocks : list json) :
  dict_get_or "content" JNull m = JArr blocks ->
  existsb (is_block_of_type "tool_use") blocks = false ->
  existsb (is_block_of_type "tool_result") blocks = false ->
  translate_message U k (JObj m) =
    (s <- py_join newline (text_parts_of blocks) ;;
     Ok ([role_content_message (dict_get_or "role" (JStr "user") m) (JStr s)], k)).
Proof.
  intros Hcontent Huse Hresult.
  unfold translate_message. simpl. rewrite Hcontent.
  pose proof (block_loop_lists U blocks (mk_block_lists [] [] [] k)) as H.
  pose proof (existsb_filter_nonempty (is_block_of_type "tool_result") blocks) as Hf.
  rewrite Hresult in Hf. unfold tool_result_messages in H.
  destruct (List.filter (is_block_of_type "tool_result") blocks); [|discriminate].
  simpl in H. destruct H as [calls [k1 [Hloop Hcalls]]].
  pose proof (block_loop_tool_calls U blocks _ _ Hloop) as Hexact. simpl in Hexact.
  rewrite Huse in Hcalls. destruct calls; [|discriminate].
  assert (Hk : k1 = k).
  { pose proof (block_loop_uuids_drawn U blocks _ _ Hloop) as Hd. simpl in Hd.
    pose proof (existsb_filter_nonempty (is_block_of_type "tool_use") blocks) as Hu.
    rewrite Huse in Hu.
    destruct (List.filter (is_block_of_type "tool_use") blocks); [|discriminate].
    simpl in Hd. lia. }
  subst k1. rewrite Hloop. simpl. unfold build_messages. simpl.
  rewrite andb_false_r.
  destruct (is_nonempty (text_parts_of blocks)) eqn:Et; simpl.
  - destruct (py_join newline (text_parts_of blocks)); reflexivity.
  - destruct (text_parts_of blocks); [reflexivity|discriminate].
Qed.

(** The statement above at a user message with two text blocks. *)
Lemma text_blocks_give_one_message_witness :
  let blocks := [text_block "first"; text_block "second"] in
  dict_get_or "content" JNull (user_message blocks) = JArr blocks /\
  existsb (is_block_of_type "tool_use") blocks = false /\
  existsb (is_block_of_type "tool_result") blocks = false /\
  translate_message sample_uuid 0 (JObj (user_message blocks)) =
    Ok ([role_content_message (JStr "user") (JStr ("first" ++ newline ++ "second"))], 0%nat).
Proof.
  intros blocks.
  split; [reflexivity|]. split; [reflexivity|]. split; [reflexivity|].
  rewrite (text_blocks_give_one_message sample_uuid 0 (user_message blocks) blocks
             eq_refl eq_refl eq_refl).
  reflexivity.
Defined.

(** ** The request builder and the handlers: further properties *)

(** The entries of the keyword arguments the builder copies or derives from
    its arguments. *)
Lemma build_call_kwargs_passthrough (U : nat -> string) (body : request_body) (model : json)
    (api_base auth_token : string) (stream : json) (kw : call_kwargs) :
  build_call_kwargs U body model api_base auth_token stream = Ok kw ->
  kw_model kw = "openai/" ++ py_str model /\
  kw_api_base kw = api_base /\
  kw_api_key kw = auth_token /\
  kw_stream kw = stream /\
  kw_top_p kw = top_p body /\
  kw_max_tokens kw = dict_get_or "max_tokens" (JNum 4096) (fields body) /\
  kw_tool_choice kw =
    match kw_tools kw with
    | Some _ =>
        Some match _translate_tool_choice (dict_get_or "tool_choice" JNull (fields body)) with
             | Some c => c
             | None => JStr "auto"
             end
    | None => None
    end.
Proof.
  unfold build_call_kwargs. intros H. bind_inv H. injection H as <-. simpl.
  repeat split.
  destruct a2 as [l|]; simpl; [|reflexivity].
  destruct l; simpl; [reflexivity|].
  destruct (_translate_tool_choice _); reflexivity.
Qed.

Lemma translate_tool_choice_range (tool_choice c : json) :
  _translate_tool_choice tool_choice = Some c ->
  c = JStr "auto" \/ c = JStr "required" \/
  exists name, c = JObj [("type", JStr "function"); ("function", JObj [("name", name)])].
Proof.
  unfold _translate_tool_choice. destruct tool_choice as [| | | | |d]; try discriminate.
  destruct (json_eq_str _ "auto"); [intros [= <-]; left; reflexivity|].
  destruct (json_eq_str _ "any"); [intros [= <-]; right; left; reflexivity|].
  destruct (json_eq_str _ "tool"); [|discriminate].
  intros [= <-]. right. right. eexists. reflexivity.
Qed.

(** X14: a tool choice is sent to the backend exactly when tools are sent.  It
    is then auto, required or a named function, and it is auto when the
    request names no choice or one that is not recognised.  The top_p entry
    is set exactly when the request has one, and max_tokens defaults to
    4096. *)
Theorem tool_choice_goes_with_tools (U : nat -> string) (body : request_body) (model : json)
    (api_base auth_token : string) (stream : json) (kw : call_kwargs) :
  build_call_kwargs U body model api_base auth_token stream = Ok kw ->
  (kw_tool_choice kw = None <-> kw_tools kw = None) /\
  (forall c, kw_tool_choice kw = Some c ->
     c = JStr "auto" \/ c = JStr "required" \/
     exists name, c = JObj [("type", JStr "function"); ("function", JObj [("name", name)])]) /\
  (kw_tools kw <> None ->
   _translate_tool_choice (dict_get_or "tool_choice" JNull (fields body)) = None ->
   kw_tool_choice kw = Some (JStr "auto")) /\
  kw_top_p kw = top_p body /\
  kw_max_tokens kw = dict_get_or "max_tokens" (JNum 4096) (fields body).
Proof.
  intros H.
  destruct (build_call_kwargs_passthrough _ _ _ _ _ _ _ H)
    as [_ [_ [_ [_ [Htop [Hmax Hchoice]]]]]].
  split; [|split; [|split; [|split; assumption]]].
  - rewrite Hchoice. destruct (kw_tools kw); split; intros H'; discriminate || reflexivity.
  - intros c Hc. rewrite Hchoice in Hc. destruct (kw_tools kw); [|discriminate].
    injection Hc as <-.
    destruct (_translate_tool_choice _) as [c|] eqn:E; [|left; reflexivity].
    exact (translate_tool_choice_range _ _ E).
  - intros Hne Hnone. rewrite Hchoice, Hnone.
    destruct (kw_tools kw); [reflexivity|exfalso; apply Hne; reflexivity].
Qed.

(** The statement above at a request with one tool and no tool choice. *)
Lemma tool_choice_goes_with_tools_witness :
  exists kw,
    build_call_kwargs sample_uuid (sample_request [sample_tool] 0.9%float) (JStr "m")
      "http://backend" "token" (JBool false) = Ok kw /\
    kw_tools kw <> None /\
    kw_tool_choice kw = Some (JStr "auto").
Proof.
  eexists. split; [reflexivity|].
  pose proof (tool_choice_goes_with_tools sample_uuid
                (sample_request [sample_tool] 0.9%float) (JStr "m") "http://backend" "token"
                (JBool false) _ eq_refl) as [_ [_ [Hauto _]]].
  split; [discriminate|]. apply Hauto; [discriminate|reflexivity].
Defined.

(** What the handler has established when it calls the backend. *)
Lemma proxy_messages_call (env : environment) (kw : call_kwargs) :
  In (CallBackend kw) (interactions (proxy_messages env)) ->
  litellm_installed env = true /\
  exists body provider,
    request_json env = Some body /\
    providers_get (configured_provider env) (API_PROVIDERS env) = Some provider /\
    build_call_kwargs (uuid4_hex env) body
      (first_truthy (dict_get_or "model" JNull (fields body))
         (or_empty (settings_get "api_model" (all_settings env)))
         (or_empty (settings_get "default_model" provider)))
      (if opt_str_truthy (settings_get "api_base_url" (all_settings env))
       then or_empty (settings_get "api_base_url" (all_settings env))
       else or_empty (settings_get "base_url" provider))
      (or_empty (settings_get "api_auth_token" (all_settings env)))
      (dict_get_or "stream" (JBool false) (fields body)) = Ok kw /\
    str_truthy (if opt_str_truthy (settings_get "api_base_url" (all_settings env))
                then or_empty (settings_get "api_base_url" (all_settings env))
                else or_empty (settings_get "base_url" provider)) = true.
Proof.
  unfold proxy_messages, configured_provider.
  destruct (litellm_installed env); simpl; [|intros []].
  destruct (request_json env) as [body|]; [|intros [H|[]]; discriminate H].
  destruct (providers_get _ (API_PROVIDERS env)) as [[|p ps]|] eqn:Ep;
    [intros [H|[H|[]]]; discriminate H| |intros [H|[H|[]]]; discriminate H].
  destruct (str_truthy _) eqn:Eb; simpl; [|intros [H|[H|[]]]; discriminate H].
  destruct (build_call_kwargs _ _ _ _ _ _) as [kw0|e] eqn:Ek;
    [|intros [H|[H|[]]]; discriminate H].
  simpl. intros [H|[H|[H|[]]]]; try discriminate H. injection H as <-.
  split; [reflexivity|]. exists body, (p :: ps). repeat split; assumption.
Qed.

Lemma prefix_append (p s : string) : String.prefix p (p ++ s) = true.
Proof.
  induction p as [|c p IH]; simpl; [destruct s; reflexivity|].
  destruct (ascii_dec c c) as [_|Hne]; [exact IH|exfalso; apply Hne; reflexivity].
Qed.

(** X15: the backend is only ever called with the backend client installed, a
    decoded body, a known provider and a non-empty base URL; the model it is
    called with is namespaced with openai/ and the key is the configured
    token. *)
Theorem backend_is_called_only_when_configured (env : environment) (kw : call_kwargs) :
  In (CallBackend kw) (interactions (proxy_messages env)) ->
  litellm_installed env = true /\
  request_json env <> None /\
  providers_get (configured_provider env) (API_PROVIDERS env) <> None /\
  str_truthy (kw_api_base kw) = true /\
  String.prefix "openai/" (kw_model kw) = true /\
  kw_api_key kw = or_empty (settings_get "api_auth_token" (all_settings env)).
Proof.
  intros H. destruct (proxy_messages_call env kw H)
    as [Hl [body [provider [Hbody [Hprov [Hkw Hbase]]]]]].
  destruct (build_call_kwargs_passthrough _ _ _ _ _ _ _ Hkw) as [Hm [Hb [Hk _]]].
  rewrite Hbody, Hprov, Hm, Hb, Hk, prefix_append.
  repeat split; try discriminate; assumption || reflexivity.
Qed.

(** The statement above at the streaming request whose backend call fails. *)
Lemma backend_is_called_only_when_configured_witness :
  exists kw,
    In (CallBackend kw) (interactions (proxy_messages failing_backend_environment)) /\
    str_truthy (kw_api_base kw) = true /\
    String.prefix "openai/" (kw_model kw) = true /\
    kw_api_key kw = "token".
Proof.
  eexists. split; [simpl; right; right; left; reflexivity|].
  destruct (backend_is_called_only_when_configured failing_backend_environment _
              (or_intror (or_intror (or_introl eq_refl))))
    as [_ [_ [_ [Hbase [Hmodel Hkey]]]]].
  split; [exact Hbase|]. split; [exact Hmodel|exact Hkey].
Defined.

(** X16: the model of the request, when it is a non-empty string, is the one the
    backend is called with, whatever the settings and the provider say; a
    request without one gets the configured model, and the default model of
    the provider when none is configured. *)
Theorem inbound_model_overrides_configured (env : environment) (body : request_body)
    (kw : call_kwargs) :
  request_json env = Some body ->
  In (CallBackend kw) (interactions (proxy_messages env)) ->
  (forall m, dict_get "model" (fields body) = Some (JStr m) -> m <> "" ->
     kw_model kw = "openai/" ++ m) /\
  (dict_get "model" (fields body) = None ->
   forall a, settings_get "api_model" (all_settings env) = Some a -> a <> "" ->
     kw_model kw = "openai/" ++ a) /\
  (dict_get "model" (fields body) = None ->
   settings_get "api_model" (all_settings env) = None ->
   exists provider,
     providers_get (configured_provider env) (API_PROVIDERS env) = Some provider /\
     kw_model kw = "openai/" ++ or_empty (settings_get "default_model" provider)).
Proof.
  intros Hbody H. destruct (proxy_messages_call env kw H)
    as [_ [body' [provider [Hbody' [Hprov [Hkw _]]]]]].
  rewrite Hbody in Hbody'. injection Hbody' as <-.
  destruct (build_call_kwargs_passthrough _ _ _ _ _ _ _ Hkw) as [Hm _].
  rewrite Hm. unfold first_truthy, dict_get_or.
  split; [|split].
  - intros m Hmodel Hne. rewrite Hmodel. simpl.
    destruct (String.eqb m "") eqn:E; [apply String.eqb_eq in E; contradiction|reflexivity].
  - intros Hmodel a Ha Hne. rewrite Hmodel, Ha. simpl. unfold str_truthy.
    destruct (String.eqb a "") eqn:E; [apply String.eqb_eq in E; contradiction|reflexivity].
  - intros Hmodel Ha. exists provider. split; [exact Hprov|].
    rewrite Hmodel, Ha. reflexivity.
Qed.

(** The statement above at the streaming request whose backend call fails:
    its model m is used although the provider has a default model. *)
Lemma inbound_model_overrides_configured_witness :
  exists kw,
    request_json failing_backend_environment = Some streaming_request /\
    In (CallBackend kw) (interactions (proxy_messages failing_backend_environment)) /\
    kw_model kw = "openai/" ++ "m".
Proof.
  eexists. split; [reflexivity|]. split; [simpl; right; right; left; reflexivity|].
  apply (proj1 (inbound_model_overrides_configured failing_backend_environment
                  streaming_request _ eq_refl
                  (or_intror (or_intror (or_introl eq_refl)))));
    [reflexivity|discriminate].
Defined.



(** X18: the count_tokens handler only decodes the body: it reads no settings and
    calls no backend.  It answers 400 when the body cannot be decoded, and
    otherwise 200 with a count of at least 1. *)
Theorem count_tokens_answers_at_least_one (env : environment) (resp : response) :
  reply (proxy_count_tokens env) = Ok resp ->
  interactions (proxy_count_tokens env) = [ParseBody] /\
  ((request_json env = None /\
    resp = JSONResponse 400 (error_content "invalid_request" "Invalid JSON body")) \/
   (exists n, 1 <= n /\ resp = JSONResponse 200 (JObj [("input_tokens", JNum n)]))).
Proof.
  unfold proxy_count_tokens. destruct (request_json env) as [body|]; simpl.
  - unfold _count_tokens_estimate.
    destruct (match dict_get_or "system" (JStr "") (fields body) with
              | JStr s => Ok (Z.of_nat (String.length s))
              | JArr blocks => add_chars system_block_chars blocks 0
              | _ => Ok 0
              end) as [t0|e]; simpl; [|discriminate].
    destruct (py_iter _) as [msgs|e]; simpl; [|discriminate].
    destruct (add_chars message_chars msgs t0) as [t|e]; simpl; [|discriminate].
    intros [= <-]. split; [reflexivity|]. right. eexists. split; [|reflexivity]. lia.
  - intros [= <-]. split; [reflexivity|]. left. split; reflexivity.
Qed.

(** The statement above at a body with one short message. *)
Lemma count_tokens_answers_at_least_one_witness :
  interactions (proxy_count_tokens no_litellm_environment) = [ParseBody] /\
  ((request_json no_litellm_environment = None /\
    JSONResponse 200 (JObj [("input_tokens", JNum 1)])
      = JSONResponse 400 (error_content "invalid_request" "Invalid JSON body")) \/
   (exists n, 1 <= n /\
      JSONResponse 200 (JObj [("input_tokens", JNum 1)])
        = JSONResponse 200 (JObj [("input_tokens", JNum n)]))).
Proof.
  apply (count_tokens_answers_at_least_one no_litellm_environment). reflexivity.
Defined.

(** ** The non-streaming response builder *)

Lemma tool_use_blocks_well_formed (loads : string -> option json) (U : nat -> string)
    (tcs : list completion_tool_call) :
  forall k,
    forallb call_is_well_formed tcs = true ->
    exists blocks k',
      tool_use_blocks loads U k tcs = Ok (blocks, k') /\
      Forall2 (block_of_call loads) tcs blocks.
Proof.
  induction tcs as [|tc tcs IH]; intros k Hwf.
  - exists [], k. split; [reflexivity|constructor].
  - simpl in Hwf. apply andb_true_iff in Hwf. destruct Hwf as [Htc Hwf].
    cbn [tool_use_blocks]. unfold tool_use_block_of, call_is_well_formed in *.
    destruct (ctc_function tc) as [f|] eqn:Ef; [|discriminate].
    destruct (cf_arguments f) as [arguments|] eqn:Ea; [|discriminate].
    cbn [bind].
    destruct (opt_str_truthy (ctc_id tc)) eqn:Eid; cbn [bind fst snd].
    + destruct (IH k Hwf) as [blocks [k' [-> HF]]]. cbn [bind fst snd].
      eexists. eexists. split; [reflexivity|]. constructor; [|exact HF].
      exists (or_empty (ctc_id tc)). unfold decoded_input. rewrite Ef, Ea.
      split; [reflexivity|intros _; reflexivity].
    + destruct (IH (S k) Hwf) as [blocks [k' [-> HF]]]. cbn [bind fst snd].
      eexists. eexists. split; [reflexivity|]. constructor; [|exact HF].
      exists ("toolu_" ++ uuid_prefix U k 12). unfold decoded_input. rewrite Ef, Ea.
      split; [reflexivity|]. rewrite Eid. discriminate.
Qed.



(** The response of that example in full: it is built, and the input of the
    tool_use block is the empty object. *)
Example response_with_undecodable_arguments :
  _build_anthropic_response loads_fails sample_uuid sample_completion (JStr "m") =
    Ok (JObj [("id", JStr "msg_0123456789abcdef01234567");
              ("type", JStr "message");
              ("role", JStr "assistant");
              ("content",
                JArr [JObj [("type", JStr "text"); ("text", JStr "Checking.")];
                      JObj [("type", JStr "tool_use"); ("id", JStr "call_a");
                            ("name", JStr "get_weather"); ("input", JObj [])]]);
              ("model", JStr "m");
              ("stop_reason", JStr "tool_use");
              ("stop_sequence", JNull);
              ("usage", JObj [("input_tokens", JNum 0); ("output_tokens", JNum 0)])]).
Proof. reflexivity. Qed.

Lemma tool_use_blocks_missing_function (loads : string -> option json) (U : nat -> string)
    (before : list completion_tool_call) :
  forall k tc after,
    forallb call_is_well_formed before = true ->
    ctc_function tc = None ->
    tool_use_blocks loads U k (before ++ tc :: after) = Raise AttributeError.
Proof.
  induction before as [|b before IH]; intros k tc after Hwf Hnone.
  - cbn [app tool_use_blocks]. unfold tool_use_block_of. rewrite Hnone. cbn [bind].
    destruct (opt_str_truthy (ctc_id tc)); reflexivity.
  - simpl in Hwf. apply andb_true_iff in Hwf. destruct Hwf as [Hb Hwf].
    destruct (tool_use_blocks_well_formed loads U [b] k) as [blocks [k' [H _]]].
    { simpl. rewrite Hb. reflexivity. }
    cbn [app tool_use_blocks] in *.
    destruct (tool_use_block_of loads U k b) as [[blk k1]|e]; [|discriminate].
    cbn [bind snd fst]. rewrite (IH k1 tc after Hwf Hnone). reflexivity.
Qed.

(** X20: a tool call that has no function fails the whole response: the handler
    of the exception supplies an empty input, and reading the name of the
    missing function then raises the same exception outside the handler. *)
Theorem tool_call_without_function_fails_the_response (loads : string -> option json)
    (U : nat -> string) (oai_response : completion) (model : json)
    (before after : list completion_tool_call) (tc : completion_tool_call) :
  response_calls oai_response = (before ++ tc :: after)%list ->
  forallb call_is_well_formed before = true ->
  ctc_function tc = None ->
  _build_anthropic_response loads U oai_response model = Raise AttributeError.
Proof.
  unfold response_calls, _build_anthropic_response.
  destruct (first_message oai_response) as [message|].
  - intros -> Hwf Hnone.
    rewrite (tool_use_blocks_missing_function loads U before 0 tc after Hwf Hnone).
    reflexivity.
  - intros H. destruct before; discriminate H.
Qed.

(** The statement above at a response whose only tool call has an id and no
    function. *)
Lemma tool_call_without_function_fails_the_response_witness :
  let tc := mk_completion_tool_call (Some "call_a") None in
  let r := mk_completion
             [mk_completion_choice (Some (mk_completion_message None [tc])) (Some "tool_calls")]
             None in
  response_calls r = ([] ++ tc :: [])%list /\
  forallb call_is_well_formed [] = true /\
  ctc_function tc = None /\
  _build_anthropic_response loads_fails sample_uuid r (JStr "m") = Raise AttributeError.
Proof.
  intros tc r.
  split; [reflexivity|]. split; [reflexivity|]. split; [reflexivity|].
  exact (tool_call_without_function_fails_the_response loads_fails sample_uuid r (JStr "m")
           [] [] tc eq_refl eq_refl eq_refl).
Defined.

(** ** The framing of events *)

Lemma all_chars_app (p : ascii -> bool) (a b : string) :
  all_chars p (a ++ b) = all_chars p a && all_chars p b.
Proof.
  induction a as [|c a IH]; simpl; [reflexivity|].
  rewrite IH, andb_assoc. reflexivity.
Qed.

Lemma dumps_char_printable (c : ascii) : all_chars is_printable_ascii (dumps_char c) = true.
Proof. destruct c as [[] [] [] [] [] [] [] []]; vm_compute; reflexivity. Qed.

Lemma dumps_str_printable (s : string) : all_chars is_printable_ascii (dumps_str s) = true.
Proof.
  unfold dumps_str. rewrite !all_chars_app. simpl.
  induction s as [|c s IH]; simpl; [reflexivity|].
  rewrite all_chars_app, dumps_char_printable. exact IH.
Qed.

Lemma string_of_uint_printable (d : Decimal.uint) :
  all_chars is_printable_ascii (NilEmpty.string_of_uint d) = true.
Proof. induction d; simpl; try exact IHd; reflexivity. Qed.

Lemma str_of_Z_printable (n : Z) : all_chars is_printable_ascii (str_of_Z n) = true.
Proof.
  unfold str_of_Z, NilZero.string_of_int, NilZero.string_of_uint.
  destruct (Z.to_int n) as [d|d]; destruct d; simpl;
    try reflexivity; apply string_of_uint_printable.
Qed.

Lemma str_join_printable (parts : list string) :
  Forall (fun s => all_chars is_printable_ascii s = true) parts ->
  all_chars is_printable_ascii (str_join ", " parts) = true.
Proof.
  induction 1 as [|s parts Hs Hparts IH]; [reflexivity|].
  destruct parts as [|s' parts]; simpl; [exact Hs|].
  rewrite all_chars_app, Hs. simpl. exact IH.
Qed.

(** The serialization of a value has printable ASCII characters only: line
    breaks, control characters and characters beyond ASCII are escaped. *)
Lemma json_dumps_printable (v : json) : all_chars is_printable_ascii (json_dumps v) = true.
Proof.
  revert v. fix IH 1. intros [| [] |n|s|items|d]; try reflexivity.
  - apply str_of_Z_printable.
  - apply dumps_str_printable.
  - cbn [json_dumps]. rewrite !all_chars_app.
    apply andb_true_iff. split; [reflexivity|].
    apply andb_true_iff. split; [|reflexivity]. apply str_join_printable.
    induction items as [|x items IHitems]; constructor; [apply IH|exact IHitems].
  - cbn [json_dumps]. rewrite !all_chars_app.
    apply andb_true_iff. split; [reflexivity|].
    apply andb_true_iff. split; [|reflexivity]. apply str_join_printable.
    induction d as [|[k x] d IHd]; constructor; [|exact IHd].
    cbn [fst snd]. rewrite !all_chars_app, dumps_str_printable, IH. reflexivity.
Qed.

(** X21: every event is framed as a line with its name, a line with its data and
    an empty line, and the data has printable ASCII characters only: a line
    break in a text fragment, a tool name or a model name cannot break the
    frame. *)
Theorem event_frame_has_one_data_line (e : event) :
  exists payload,
    sse e = "event: " ++ event_name e ++ newline ++ "data: " ++ payload ++ newline ++ newline /\
    all_chars is_printable_ascii payload = true /\
    all_chars is_printable_ascii (event_name e) = true /\
    is_printable_ascii (ascii_of_N 10) = false.
Proof.
  exists (json_dumps (event_data e)). split; [reflexivity|].
  split; [apply json_dumps_printable|]. split; [destruct e; reflexivity|reflexivity].
Qed.

(** The frame of a text delta that carries a line break. *)
Example frame_of_text_with_line_break :
  sse (ContentBlockDelta 0 (TextDelta ("a" ++ newline ++ "b"))) =
    "event: content_block_delta" ++ newline ++
    "data: {" ++ dquote ++ "type" ++ dquote ++ ": " ++ dquote ++ "content_block_delta" ++ dquote
      ++ ", " ++ dquote ++ "index" ++ dquote ++ ": 0, " ++ dquote ++ "delta" ++ dquote ++ ": {"
      ++ dquote ++ "type" ++ dquote ++ ": " ++ dquote ++ "text_delta" ++ dquote ++ ", "
      ++ dquote ++ "text" ++ dquote ++ ": " ++ dquote ++ "a\nb" ++ dquote ++ "}}"
      ++ newline ++ newline.
Proof. reflexivity. Qed.

(** ** The token estimate and the streaming reply: further properties *)

Lemma py_len_nonneg (v : json) (n : Z) : py_len v = Ok n -> 0 <= n.
Proof. destruct v; simpl; intros [= <-]; lia. Qed.

Lemma add_chars_app (chars : json -> result Z) (l1 l2 : list json) :
  forall total_chars,
    add_chars chars (l1 ++ l2) total_chars =
      (t <- add_chars chars l1 total_chars ;; add_chars chars l2 t).
Proof.
  induction l1 as [|x l1 IH]; intros total_chars; simpl; [reflexivity|].
  destruct (chars x) as [n|e]; simpl; [apply IH|reflexivity].
Qed.

Lemma add_chars_grows (chars : json -> result Z) (l : list json) :
  (forall x n, chars x = Ok n -> 0 <= n) ->
  forall total_chars t, add_chars chars l total_chars = Ok t -> total_chars <= t.
Proof.
  intros Hchars. induction l as [|x l IH]; intros total_chars t; simpl.
  - intros [= <-]. lia.
  - destruct (chars x) as [n|e] eqn:E; simpl; [|discriminate].
    intros H. apply IH in H. apply Hchars in E. lia.
Qed.

Lemma content_block_chars_nonneg (block : json) (n : Z) :
  content_block_chars block = Ok n -> 0 <= n.
Proof.
  destruct block; simpl; try (intros [= <-]; lia).
  destruct (py_len _) as [m|e] eqn:E; simpl; [|discriminate].
  intros [= <-]. apply py_len_nonneg in E. lia.
Qed.

Lemma message_chars_nonneg (msg : json) (n : Z) : message_chars msg = Ok n -> 0 <= n.
Proof.
  unfold message_chars. destruct (as_dict msg) as [m|e]; simpl; [|discriminate].
  destruct (dict_get_or "content" (JStr "") m); try (intros [= <-]; lia).
  intros H. exact (add_chars_grows _ _ content_block_chars_nonneg _ _ H).
Qed.

(** X22: messages added at the end of a conversation never lower the estimate. *)
Theorem estimate_grows_with_the_conversation (rest : list (string * json))
    (messages more : list json) (n n' : Z) :
  _count_tokens_estimate (("messages", JArr messages) :: rest) = Ok n ->
  _count_tokens_estimate (("messages", JArr (messages ++ more)) :: rest) = Ok n' ->
  1 <= n <= n'.
Proof.
  unfold _count_tokens_estimate.
  change (dict_get_or "system" (JStr "") (("messages", JArr messages) :: rest))
    with (dict_get_or "system" (JStr "") rest).
  change (dict_get_or "system" (JStr "") (("messages", JArr (messages ++ more)) :: rest))
    with (dict_get_or "system" (JStr "") rest).
  change (dict_get_or "messages" (JArr []) (("messages", JArr messages) :: rest))
    with (JArr messages).
  change (dict_get_or "messages" (JArr []) (("messages", JArr (messages ++ more)) :: rest))
    with (JArr (messages ++ more)).
  destruct (match dict_get_or "system" (JStr "") rest with
            | JStr s => Ok (Z.of_nat (String.length s))
            | JArr blocks => add_chars system_block_chars blocks 0
            | _ => Ok 0
            end) as [t0|e]; simpl; [|discriminate].
  rewrite add_chars_app.
  destruct (add_chars message_chars messages t0) as [t|e]; simpl; [|discriminate].
  intros [= <-].
  destruct (add_chars message_chars more t) as [t'|e] eqn:E; simpl; [|discriminate].
  intros [= <-].
  pose proof (add_chars_grows _ _ message_chars_nonneg _ _ E) as Hle.
  pose proof (Z.div_le_mono t t' 4 ltac:(lia) Hle). lia.
Qed.

(** The statement above at a conversation of one message that gets a
    second one. *)
Lemma estimate_grows_with_the_conversation_witness :
  _count_tokens_estimate [("messages", JArr [plain_message ("user", "hello there")])] = Ok 2 /\
  _count_tokens_estimate
    [("messages", JArr ([plain_message ("user", "hello there")]
                          ++ [plain_message ("assistant", "hi, how can I help?")]))] = Ok 7 /\
  1 <= 2 <= 7.
Proof.
  split; [reflexivity|]. split; [reflexivity|].
  apply (estimate_grows_with_the_conversation []
           [plain_message ("user", "hello there")]
           [plain_message ("assistant", "hi, how can I help?")]); reflexivity.
Defined.


